(** * Metropolis Light Transport integrator (src/integrators/mlt/mlt.cpp)

    A shallow embedding of the [MLT] integrator class: its constructor,
    [preprocess], [cancel] and [render], together with the machine
    arithmetic [render] uses to split the mutation budget into work units. *)

From Stdlib Require Import ZArith Lia Bool QArith Floats.SpecFloat.
From stdpp Require Import base option list strings gmap.

Local Open Scope Z_scope.

(** * Machine arithmetic *)

Module Machine.

(** [int] is a 32-bit two's complement integer, [size_t] a 64-bit
    unsigned one.  Arithmetic on either is taken modulo its width (for
    [int] this is what the hardware does where the language leaves
    overflow undefined); the statements below that depend on the exact
    value assume the ranges in which nothing wraps. *)
Definition int_wrap (z : Z) : Z := (z + 2 ^ 31) mod 2 ^ 32 - 2 ^ 31.
Definition size_wrap (z : Z) : Z := z mod 2 ^ 64.

Definition int_mul (a b : Z) : Z := int_wrap (a * b).
Definition size_mul (a b : Z) : Z := size_wrap (a * b).

(** Unsigned division; a zero divisor has no defined result. *)
Definition size_div (a b : Z) : option Z :=
  if b =? 0 then None else Some (a / b).

(** ** Single precision

    Only non-negative values occur.  A finite single-precision number is
    a mantissa of at most 24 bits times a power of two; [rne num den] is
    the integer nearest to [num / den], ties going to the even one. *)
Definition rne (num den : Z) : Z :=
  let q := num / den in
  let r := num mod den in
  if 2 * r <? den then q
  else if den <? 2 * r then q + 1
  else if Z.even q then q else q + 1.

(** Conversion of a [size_t] to [float]: the result is again an integer. *)
Definition f32_of_size (n : Z) : Z :=
  if n <? 2 ^ 24 then n
  else let e := Z.log2 n - 23 in rne n (2 ^ e) * 2 ^ e.

(** [a / b] for integer-valued floats [0 <= a] and [0 < b], as the pair
    [(m, e)] standing for [m * 2 ^ e]. *)
Definition f32_scaled (a b e : Z) : Z :=
  rne (a * 2 ^ Z.max 0 (- e)) (b * 2 ^ Z.max 0 e).

Definition f32_div (a b : Z) : Z * Z :=
  if a =? 0 then (0, 0)
  else
    let e0 := Z.log2 a - Z.log2 b - 24 in
    let e :=
      if 2 ^ 24 * (b * 2 ^ Z.max 0 e0) <=? a * 2 ^ Z.max 0 (- e0)
      then e0 + 1 else e0 in
    (f32_scaled a b e, e).

(** [std::ceil] *)
Definition f32_ceil (x : Z * Z) : Z :=
  let (m, e) := x in
  if 0 <=? e then m * 2 ^ e else - ((- m) / 2 ^ (- e)).

(** The same two operations in the Standard Library's IEEE 754
    specification, at precision 24 and maximal exponent 128. *)
Definition ieee_of_size (n : Z) : spec_float :=
  binary_normalize 24 128 n 0 false.

Definition ieee_quotient (n d : Z) : spec_float :=
  SFdiv 24 128 (ieee_of_size n) (ieee_of_size d).

Definition ieee_agrees (x : Z * Z) (y : spec_float) : bool :=
  match y with
  | S754_zero _ => fst x =? 0
  | S754_finite false m e =>
      fst x * 2 ^ Z.max 0 (snd x - e) =? Z.pos m * 2 ^ Z.max 0 (e - snd x)
  | _ => false
  end.

Fixpoint ieee_agree_from (n : nat) (t step : Z) : bool :=
  match n with
  | O => true
  | S n' =>
      ieee_agrees (f32_of_size t, 0) (ieee_of_size t)
      && ieee_agrees (f32_div (f32_of_size t) 200000) (ieee_quotient t 200000)
      && ieee_agree_from n' (t + step) step
  end.

End Machine.

Import Machine.

(** * Data model *)

(** [Float] values (luminance, [probFactor]) are only stored and passed on,
    never computed with. *)
Definition Float := Q.

Inductive Bitmap := BitmapRef (id : Z).
Inductive PathSeed := PathSeedRef (id : Z).
Inductive RenderJob := RenderJobRef (id : Z).
Inductive ParallelProcess := ProcessRef (id : Z).

(** [Properties]: the key/value store the constructor reads, with the
    default returned for an absent key. *)
Record Properties := {
  integers : gmap string Z;
  booleans : gmap string bool;
  floats : gmap string Float
}.

Definition getInteger (props : Properties) (name : string) (def : Z) : Z :=
  default def (integers props !! name).
Definition getBoolean (props : Properties) (name : string) (def : bool) : bool :=
  default def (booleans props !! name).
Definition getFloat (props : Properties) (name : string) (def : Float) : Float :=
  default def (floats props !! name).

(** [MLTConfiguration] is declared in mlt_proc.h, which is not part of the
    sources at hand: these are the fields the integrator reads and writes.
    [workUnits] is an [int] like every value read with [getInteger] (it is
    compared with zero as a signed number); [nMutations] holds the [size_t]
    quotient. *)
Record MLTConfiguration := {
  maxDepth : Z;
  twoStage : bool;
  firstStageSizeReduction : Z;
  firstStage : bool;
  luminanceSamples : Z;
  directSamples : Z;
  separateDirect : bool;
  workUnits : Z;
  bidirectionalMutation : bool;
  lensPerturbation : bool;
  causticPerturbation : bool;
  multiChainPerturbation : bool;
  manifoldPerturbation : bool;
  probFactor : Float;
  timeout : Z;
  nMutations : Z;
  luminance : Float;
  importanceMap : option Bitmap
}.

Definition set_workUnits (v : Z) (c : MLTConfiguration) : MLTConfiguration :=
  {| maxDepth := maxDepth c; twoStage := twoStage c;
     firstStageSizeReduction := firstStageSizeReduction c;
     firstStage := firstStage c; luminanceSamples := luminanceSamples c;
     directSamples := directSamples c; separateDirect := separateDirect c;
     workUnits := v;
     bidirectionalMutation := bidirectionalMutation c;
     lensPerturbation := lensPerturbation c;
     causticPerturbation := causticPerturbation c;
     multiChainPerturbation := multiChainPerturbation c;
     manifoldPerturbation := manifoldPerturbation c;
     probFactor := probFactor c; timeout := timeout c;
     nMutations := nMutations c; luminance := luminance c;
     importanceMap := importanceMap c |}.

Definition set_nMutations (v : Z) (c : MLTConfiguration) : MLTConfiguration :=
  {| maxDepth := maxDepth c; twoStage := twoStage c;
     firstStageSizeReduction := firstStageSizeReduction c;
     firstStage := firstStage c; luminanceSamples := luminanceSamples c;
     directSamples := directSamples c; separateDirect := separateDirect c;
     workUnits := workUnits c;
     bidirectionalMutation := bidirectionalMutation c;
     lensPerturbation := lensPerturbation c;
     causticPerturbation := causticPerturbation c;
     multiChainPerturbation := multiChainPerturbation c;
     manifoldPerturbation := manifoldPerturbation c;
     probFactor := probFactor c; timeout := timeout c;
     nMutations := v; luminance := luminance c;
     importanceMap := importanceMap c |}.

Definition set_luminance (v : Float) (c : MLTConfiguration) : MLTConfiguration :=
  {| maxDepth := maxDepth c; twoStage := twoStage c;
     firstStageSizeReduction := firstStageSizeReduction c;
     firstStage := firstStage c; luminanceSamples := luminanceSamples c;
     directSamples := directSamples c; separateDirect := separateDirect c;
     workUnits := workUnits c;
     bidirectionalMutation := bidirectionalMutation c;
     lensPerturbation := lensPerturbation c;
     causticPerturbation := causticPerturbation c;
     multiChainPerturbation := multiChainPerturbation c;
     manifoldPerturbation := manifoldPerturbation c;
     probFactor := probFactor c; timeout := timeout c;
     nMutations := nMutations c; luminance := v;
     importanceMap := importanceMap c |}.

Definition set_importanceMap (v : option Bitmap) (c : MLTConfiguration)
  : MLTConfiguration :=
  {| maxDepth := maxDepth c; twoStage := twoStage c;
     firstStageSizeReduction := firstStageSizeReduction c;
     firstStage := firstStage c; luminanceSamples := luminanceSamples c;
     directSamples := directSamples c; separateDirect := separateDirect c;
     workUnits := workUnits c;
     bidirectionalMutation := bidirectionalMutation c;
     lensPerturbation := lensPerturbation c;
     causticPerturbation := causticPerturbation c;
     multiChainPerturbation := multiChainPerturbation c;
     manifoldPerturbation := manifoldPerturbation c;
     probFactor := probFactor c; timeout := timeout c;
     nMutations := nMutations c; luminance := luminance c;
     importanceMap := v |}.

(** The integrator object: [m_process], [m_nestedJob], [m_config]. *)
Record MLT := {
  m_process : option ParallelProcess;
  m_nestedJob : option RenderJob;
  m_config : MLTConfiguration
}.

(** [MLT::MLT(const Properties &)].  The three derived fields are not
    assigned by the constructor; they start out as zero and NULL here and
    [render] writes each of them before it is read. *)
Definition MLT_new (props : Properties) : MLT :=
  let directSamples := getInteger props "directSamples" 16 in
  {| m_process := None;
     m_nestedJob := None;
     m_config :=
       {| maxDepth := getInteger props "maxDepth" (-1);
          twoStage := getBoolean props "twoStage" false;
          firstStageSizeReduction := getInteger props "firstStageSizeReduction" 16;
          firstStage := getBoolean props "firstStage" false;
          luminanceSamples := getInteger props "luminanceSamples" 100000;
          directSamples := directSamples;
          separateDirect := 0 <=? directSamples;
          workUnits := getInteger props "workUnits" (-1);
          bidirectionalMutation := getBoolean props "bidirectionalMutation" true;
          lensPerturbation := getBoolean props "lensPerturbation" false;
          causticPerturbation := getBoolean props "causticPerturbation" false;
          multiChainPerturbation := getBoolean props "multiChainPerturbation" false;
          manifoldPerturbation := getBoolean props "manifoldPerturbation" false;
          probFactor := getFloat props "probFactor" (50 # 1);
          timeout := getInteger props "timeout" 0;
          nMutations := 0;
          luminance := 0 # 1;
          importanceMap := None |} |}.

(** * The collaborators of the integrator *)

(** What [preprocess] and [render] read from the scene: the subsurface
    integrators, the class name of the sensor's sampler, the film's crop
    size ([Vector2i], two [int]s) and the sampler's sample count
    ([size_t]). *)
Record Scene := {
  subsurfaceIntegrators : list string;
  samplerClassName : string;
  cropSize : Z * Z;
  sampleCount : Z
}.

(** State of the replayable sampler the path sampler draws from. *)
Definition SamplerState := Z.

(** The behaviour of the code [render] calls into: the scheduler, the
    nested first-stage job, the direct-illumination renderer, the path
    sampler's seed generation and the parallel process. *)
Record Services := {
  coreCount : Z;
  assertionsEnabled : bool;
  nestedImage : bool -> Z -> option Bitmap;
  directComponent : Z -> option Bitmap;
  seedGenerator :
    SamplerState -> Z -> Z -> bool -> Float * list PathSeed * SamplerState;
  newProcess : ParallelProcess;
  rplSamplerResID : Z;
  processSucceeds :
    MLTConfiguration -> option Bitmap -> list PathSeed -> bool
}.

Inductive ELogLevel := EInfo | EWarn | EError.

(** What the integrator does to the outside world, in order. *)
Inductive event :=
| EvLog (level : ELogLevel) (msg : string)
| EvStartMessage (nested : bool) (crop : Z * Z) (nCores samples : Z)
| EvLuminancePass (firstStageFlag : bool) (sizeFactor : Z)
| EvRenderDirect (sceneResID sensorResID samples : Z)
| EvNewReplayableSampler
| EvNewPathSampler (depth rrDepth : Z) (excludeDirectIllum sampleDirect : bool)
| EvNewProcess (p : ParallelProcess) (directImage : option Bitmap)
| EvGenerateSeeds (samples seeds : Z) (flag : bool)
| EvDump
| EvRegisterResource (resID : Z)
| EvBindResource (name : string) (resID : Z)
| EvSchedule (p : ParallelProcess) (config : MLTConfiguration)
             (directImage : option Bitmap) (seeds : list PathSeed)
| EvWait (p : ParallelProcess)
| EvDevelop (p : ParallelProcess)
| EvUnregisterResource (resID : Z)
| EvCancelJob (j : RenderJob)
| EvSchedulerCancel (p : option ParallelProcess).

(** The state an operation of the integrator works on. *)
Record World := {
  self : MLT;
  rng : SamplerState
}.

(** * A state monad with faults and an event log *)

Inductive fault :=
| FatalError (msg : string)
| DivisionByZero.

Inductive Result (A : Type) :=
| Ok (a : A)
| Fault (f : fault).
Arguments Ok {A} a.
Arguments Fault {A} f.

(** An operation maps the state to its result, the new state and the
    events it caused. *)
Definition M (A : Type) : Type := World -> Result A * World * list event.

Definition ret {A} (a : A) : M A := fun w => (Ok a, w, []).

Definition bind {A B} (m : M A) (k : A -> M B) : M B :=
  fun w =>
    match m w with
    | (Ok a, w', evs) =>
        match k a w' with
        | (r, w'', evs') => (r, w'', evs ++ evs')
        end
    | (Fault f, w', evs) => (Fault f, w', evs)
    end.

Definition raise {A} (f : fault) : M A := fun w => (Fault f, w, []).

Declare Scope mlt_scope.
Delimit Scope mlt_scope with mlt.
Notation "x <- m ;; k" := (bind m (fun x => k))
  (at level 100, m at next level, right associativity) : mlt_scope.
Notation "m ;; k" := (bind m (fun _ => k))
  (at level 100, right associativity) : mlt_scope.
Local Open Scope mlt_scope.

Definition emit (e : event) : M unit := fun w => (Ok tt, w, [e]).

Definition get_self : M MLT := fun w => (Ok (self w), w, []).

Definition get_config : M MLTConfiguration :=
  fun w => (Ok (m_config (self w)), w, []).

Definition modify_config (f : MLTConfiguration -> MLTConfiguration) : M unit :=
  fun w =>
    (Ok tt,
     {| self := {| m_process := m_process (self w);
                   m_nestedJob := m_nestedJob (self w);
                   m_config := f (m_config (self w)) |};
        rng := rng w |},
     []).

Definition set_process (p : option ParallelProcess) : M unit :=
  fun w =>
    (Ok tt,
     {| self := {| m_process := p;
                   m_nestedJob := m_nestedJob (self w);
                   m_config := m_config (self w) |};
        rng := rng w |},
     []).

Definition set_nestedJob (j : option RenderJob) : M unit :=
  fun w =>
    (Ok tt,
     {| self := {| m_process := m_process (self w);
                   m_nestedJob := j;
                   m_config := m_config (self w) |};
        rng := rng w |},
     []).

Definition lift_option {A} (o : option A) (f : fault) : M A :=
  match o with Some a => ret a | None => raise f end.

(** Modelled from the spec: the [Log] macro and the logger behind it are
    not part of the sources at hand.  Precondition errors are "fatal,
    reported before any rendering work begins, render aborts immediately",
    while a failed first stage is reported "with a warning, not a fatal
    error": a message at level [EError] raises, the other levels only
    record the message. *)
Definition Log (level : ELogLevel) (msg : string) : M unit :=
  emit (EvLog level msg) ;;
  match level with
  | EError => raise (FatalError msg)
  | _ => ret tt
  end.

(** Modelled from the spec: the [Assert] macro is not part of the sources
    at hand.  It is taken as a parameter: either compiled out, or a failed
    condition is logged at level [EError] ("firstStageSizeReduction must be
    a positive integer when two-stage mode is active"). *)
Definition Assert (sv : Services) (cond : bool) (text : string) : M unit :=
  if assertionsEnabled sv && negb cond
  then Log EError ("Assertion failed: " ++ text)
  else ret tt.

(** * The integrator *)

(** Modelled from the spec: [Integrator::preprocess], the base-class
    method, is not part of the sources at hand.  The spec names no
    precondition besides the two [MLT::preprocess] checks itself, so the
    base method is taken to do nothing and return [true]; its result is
    not used. *)
Definition Integrator_preprocess : M bool := ret true.

(** [MLT::preprocess] *)
Definition preprocess (scene : Scene) : M bool :=
  Integrator_preprocess ;;
  (if (0 <? length (subsurfaceIntegrators scene))%nat
   then Log EError "Subsurface integrators are not supported by MLT!"
   else ret tt) ;;
  (if negb (String.eqb (samplerClassName scene) "IndependentSampler")
   then Log EError "Metropolis light transport requires the independent sampler"
   else ret tt) ;;
  ret true.

(** [MLT::cancel] *)
Definition cancel : M unit :=
  this <- get_self ;;
  let nested := m_nestedJob this in
  (match nested with
   | Some j => emit (EvCancelJob j)
   | None => ret tt
   end) ;;
  this <- get_self ;;
  emit (EvSchedulerCancel (m_process this)).

(** Modelled from the spec: [BidirectionalUtils::mltLuminancePass] is not
    part of the sources at hand.  It runs "a complete nested instance of the
    whole pipeline with the crop resolution divided by the configured
    reduction factor and the first stage flag set" and "capture[s] its
    developed image as a per-pixel importance map"; a failed nested run
    "returns no image".  The job reference it is handed is empty again once
    it returns. *)
Definition mltLuminancePass (sv : Services) (sizeFactor : Z)
  : M (option Bitmap) :=
  emit (EvLuminancePass true sizeFactor) ;;
  set_nestedJob None ;;
  ret (nestedImage sv true sizeFactor).

(** [BidirectionalUtils::renderDirectComponent], not part of the sources
    at hand: what it returns for a given number of samples is a parameter;
    NULL when it fails. *)
Definition renderDirectComponent (sv : Services)
    (sceneResID sensorResID samples : Z) : M (option Bitmap) :=
  emit (EvRenderDirect sceneResID sensorResID samples) ;;
  ret (directComponent sv samples).

(** [PathSampler::generateSeeds], not part of the sources at hand: what it
    draws is a parameter.  It advances the replayable sampler, appends to
    [seeds] and returns a luminance. *)
Definition generateSeeds (sv : Services) (samples seedCount : Z) (flag : bool)
    (seeds : list PathSeed) : M (Float * list PathSeed) :=
  fun w =>
    let '(lum, fresh, rng') := seedGenerator sv (rng w) samples seedCount flag in
    (Ok (lum, seeds ++ fresh),
     {| self := self w; rng := rng' |},
     [EvGenerateSeeds samples seedCount flag]).

(** [std::vector::clear] *)
Definition clear {A} (v : list A) : list A := [].

(** [cropSize.x * cropSize.y * sampleCount]: an [int] product, converted to
    [size_t] and multiplied by the [size_t] sample count. *)
Definition pixelSamples (scene : Scene) : Z :=
  size_mul (size_wrap (int_mul (fst (cropSize scene)) (snd (cropSize scene))))
           (sampleCount scene).

(** [(size_t) std::ceil(total / 200000.0f)], stored into the [int] field. *)
Definition autoWorkUnits (total : Z) : Z :=
  int_wrap (size_wrap (f32_ceil (f32_div (f32_of_size total) 200000))).

(** Lines 174-179 of [render]: the two derived fields. *)
Definition deriveBudget (scene : Scene) : M unit :=
  cfg <- get_config ;;
  (if workUnits cfg <=? 0
   then modify_config (set_workUnits (autoWorkUnits (pixelSamples scene)))
   else ret tt) ;;
  cfg <- get_config ;;
  n <- lift_option
         (size_div (pixelSamples scene) (size_wrap (workUnits cfg)))
         DivisionByZero ;;
  modify_config (set_nMutations n).

(** Lines 189-223 of [render].  The process is constructed on [m_config]
    and [pathSeeds] before either is filled in and keeps referring to them,
    so what it works with is their content when it is scheduled. *)
Definition runChains (sv : Services) (nested : bool)
    (sceneResID sensorResID samplerResID : Z)
    (directImage : option Bitmap) : M bool :=
  emit EvNewReplayableSampler ;;
  cfg <- get_config ;;
  emit (EvNewPathSampler (maxDepth cfg) 10 (separateDirect cfg) true) ;;
  let pathSeeds : list PathSeed := [] in
  let process := newProcess sv in
  emit (EvNewProcess process directImage) ;;
  cfg <- get_config ;;
  r <- generateSeeds sv (luminanceSamples cfg) (workUnits cfg) false pathSeeds ;;
  modify_config (set_luminance (fst r)) ;;
  let pathSeeds := clear (snd r) in
  cfg <- get_config ;;
  r <- generateSeeds sv (luminanceSamples cfg) (workUnits cfg) true pathSeeds ;;
  modify_config (set_luminance (fst r)) ;;
  let pathSeeds := snd r in
  (if negb nested then emit EvDump else ret tt) ;;
  emit (EvRegisterResource (rplSamplerResID sv)) ;;
  emit (EvBindResource "scene" sceneResID) ;;
  emit (EvBindResource "sensor" sensorResID) ;;
  emit (EvBindResource "sampler" samplerResID) ;;
  emit (EvBindResource "rplSampler" (rplSamplerResID sv)) ;;
  set_process (Some process) ;;
  cfg <- get_config ;;
  emit (EvSchedule process cfg directImage pathSeeds) ;;
  emit (EvWait process) ;;
  set_process None ;;
  emit (EvDevelop process) ;;
  emit (EvUnregisterResource (rplSamplerResID sv)) ;;
  ret (processSucceeds sv cfg directImage pathSeeds).

(** Lines 166-187 of [render], then the chains. *)
Definition renderMain (sv : Services) (scene : Scene)
    (sceneResID sensorResID samplerResID : Z) : M bool :=
  let nCores := coreCount sv in
  cfg <- get_config ;;
  let nested := twoStage cfg && firstStage cfg in
  emit (EvStartMessage nested (cropSize scene) nCores (sampleCount scene)) ;;
  deriveBudget scene ;;
  cfg <- get_config ;;
  if separateDirect cfg && (0 <? directSamples cfg) && negb nested
  then
    directImage <- renderDirectComponent sv sceneResID sensorResID
                     (directSamples cfg) ;;
    match directImage with
    | None => ret false
    | Some _ =>
        runChains sv nested sceneResID sensorResID samplerResID directImage
    end
  else runChains sv nested sceneResID sensorResID samplerResID None.

(** [MLT::render] *)
Definition render (sv : Services) (scene : Scene)
    (sceneResID sensorResID samplerResID : Z) : M bool :=
  modify_config (set_importanceMap None) ;;
  cfg <- get_config ;;
  if twoStage cfg && negb (firstStage cfg)
  then
    Log EInfo "Executing first MLT stage" ;;
    Assert sv (0 <? firstStageSizeReduction cfg)
           "m_config.firstStageSizeReduction > 0" ;;
    map <- mltLuminancePass sv (firstStageSizeReduction cfg) ;;
    modify_config (set_importanceMap map) ;;
    match map with
    | None =>
        Log EWarn "First-stage MLT process failed!" ;;
        ret false
    | Some _ =>
        Log EInfo "First MLT stage took %i ms" ;;
        renderMain sv scene sceneResID sensorResID samplerResID
    end
  else renderMain sv scene sceneResID sensorResID samplerResID.

(** * Sample scenes and collaborators *)

Definition noProperties : Properties :=
  {| integers := ∅; booleans := ∅; floats := ∅ |}.

Definition withInteger (name : string) (v : Z) (props : Properties)
  : Properties :=
  {| integers := <[name := v]> (integers props);
     booleans := booleans props; floats := floats props |}.

Definition withBoolean (name : string) (v : bool) (props : Properties)
  : Properties :=
  {| integers := integers props;
     booleans := <[name := v]> (booleans props); floats := floats props |}.

Definition sceneOf (width height samples : Z) : Scene :=
  {| subsurfaceIntegrators := [];
     samplerClassName := "IndependentSampler";
     cropSize := (width, height);
     sampleCount := samples |}.

(** Collaborators that always deliver: the [k]-th call of the seed
    generator returns luminance [k]. *)
Definition sampleServices : Services :=
  {| coreCount := 8;
     assertionsEnabled := true;
     nestedImage := fun _ _ => Some (BitmapRef 1);
     directComponent := fun _ => Some (BitmapRef 2);
     seedGenerator := fun s _ _ _ => ((s + 1) # 1, [PathSeedRef s], s + 1);
     newProcess := ProcessRef 1;
     rplSamplerResID := 4;
     processSucceeds := fun _ _ _ => true |}.

(** The same, with a first stage that fails. *)
Definition failingFirstStage : Services :=
  {| coreCount := 8;
     assertionsEnabled := true;
     nestedImage := fun _ _ => None;
     directComponent := fun _ => Some (BitmapRef 2);
     seedGenerator := fun s _ _ _ => ((s + 1) # 1, [PathSeedRef s], s + 1);
     newProcess := ProcessRef 1;
     rplSamplerResID := 4;
     processSucceeds := fun _ _ _ => true |}.

Definition initial (props : Properties) : World :=
  {| self := MLT_new props; rng := 0 |}.

Definition sampleScene : Scene := sceneOf 512 512 4.
Definition sampleWorld : World := initial noProperties.
Definition twoStageWorld : World :=
  initial (withBoolean "twoStage" true noProperties).

(** * Vocabulary of the statements *)

(** Ceiling of the exact quotient. *)
Definition ceil_div (a b : Z) : Z := - ((- a) / b).

(** The values an [int] can hold. *)
Definition is_int (z : Z) : Prop := - 2 ^ 31 <= z < 2 ^ 31.

(** The number of pixel samples as a mathematical integer. *)
Definition totalSamples (scene : Scene) : Z :=
  fst (cropSize scene) * snd (cropSize scene) * sampleCount scene.

(** A scene with a non-empty crop window and at least one sample per
    pixel, whose pixel count fits an [int] and whose number of pixel
    samples stays below 2^46. *)
Definition wellFormed (scene : Scene) : Prop :=
  let x := fst (cropSize scene) in
  let y := snd (cropSize scene) in
  0 < x /\ 0 < y /\ x * y < 2 ^ 31 /\
  0 < sampleCount scene /\ x * y * sampleCount scene < 2 ^ 46.

(** The first number of pixel samples for which the number of work units
    that [render] derives no longer fits the [int] field it is stored in:
    2^31 * 200000 - 2^24 = 429496712822784. *)
Definition budgetLimit : Z := 2 ^ 31 * 200000 - 2 ^ 24.

(** A scene whose counts do not wrap: a crop window of non-negative width
    and height whose pixel count fits an [int], and a number of pixel
    samples that fits a [size_t].  Where the number of work units is left
    to [render] ([units <= 0]) there is, moreover, at least one pixel
    sample, and there are fewer than [budgetLimit]. *)
Definition accountable (scene : Scene) (units : Z) : Prop :=
  let x := fst (cropSize scene) in
  let y := snd (cropSize scene) in
  0 <= x /\ 0 <= y /\ x * y < 2 ^ 31 /\
  0 <= sampleCount scene /\ totalSamples scene < 2 ^ 64 /\
  (units <= 0 -> 0 < totalSamples scene < budgetLimit).

Definition with_config (c : MLTConfiguration) (w : World) : World :=
  {| self := {| m_process := m_process (self w);
                m_nestedJob := m_nestedJob (self w);
                m_config := c |};
     rng := rng w |}.

Definition result_of {A} (x : Result A * World * list event) : Result A :=
  fst (fst x).
Definition world_of {A} (x : Result A * World * list event) : World :=
  snd (fst x).
Definition events_of {A} (x : Result A * World * list event) : list event :=
  snd x.
Definition config_of {A} (x : Result A * World * list event)
  : MLTConfiguration :=
  m_config (self (world_of x)).

(** An outcome with further events in front of its own. *)
Definition after {A} (evs : list event) (x : Result A * World * list event)
  : Result A * World * list event :=
  (result_of x, world_of x, evs ++ events_of x).

(** The two calls of the seed generator in [render], started on sampler
    state [r] with [n] samples and [u] seeds: the first with flag [false],
    the second with flag [true] on the state the first one left. *)
Definition firstPass (sv : Services) (r : SamplerState) (n u : Z) :=
  seedGenerator sv r n u false.
Definition secondPass (sv : Services) (r : SamplerState) (n u : Z) :=
  seedGenerator sv (snd (firstPass sv r n u)) n u true.

(** Two configurations that differ at most in the two derived counts. *)
Definition sameTunables (c c' : MLTConfiguration) : Prop :=
  set_nMutations 0 (set_workUnits 0 c') = set_nMutations 0 (set_workUnits 0 c).

(** The guard of the direct-illumination pass (line 182). *)
Definition directGuard (c : MLTConfiguration) : bool :=
  separateDirect c && (0 <? directSamples c)
  && negb (twoStage c && firstStage c).

(** The first stage is due (line 152). *)
Definition firstStageDue (c : MLTConfiguration) : bool :=
  twoStage c && negb (firstStage c).

(** The configuration and the seeds the process is scheduled with when
    [runChains] starts in state [w]. *)
Definition scheduledConfig (sv : Services) (w : World) : MLTConfiguration :=
  let c := m_config (self w) in
  set_luminance
    (fst (fst (secondPass sv (rng w) (luminanceSamples c) (workUnits c))))
    (set_luminance
       (fst (fst (firstPass sv (rng w) (luminanceSamples c) (workUnits c))))
       c).

Definition scheduledSeeds (sv : Services) (w : World) : list PathSeed :=
  let c := m_config (self w) in
  snd (fst (secondPass sv (rng w) (luminanceSamples c) (workUnits c))).

(** The state [renderMain] is entered in, for the state [render] starts
    in and a first stage that does not stop the render. *)
Definition mainEntry (sv : Services) (w : World) : World :=
  let c := m_config (self w) in
  if firstStageDue c
  then
    {| self := {| m_process := m_process (self w);
                  m_nestedJob := None;
                  m_config :=
                    set_importanceMap
                      (nestedImage sv true (firstStageSizeReduction c))
                      (set_importanceMap None c) |};
       rng := rng w |}
  else with_config (set_importanceMap None c) w.

(** * Reading the events of a run *)

(** The processes scheduled, with what each was scheduled on. *)
Definition scheduled (evs : list event)
  : list (ParallelProcess * MLTConfiguration * option Bitmap * list PathSeed) :=
  omap (fun e =>
          match e with
          | EvSchedule p c img seeds => Some (p, c, img, seeds)
          | _ => None
          end) evs.

(** The calls of the seed generator: samples, seeds, flag. *)
Definition seedRequests (evs : list event) : list (Z * Z * bool) :=
  omap (fun e =>
          match e with
          | EvGenerateSeeds n u flag => Some (n, u, flag)
          | _ => None
          end) evs.

(** The reduction factors of the luminance passes run. *)
Definition luminancePasses (evs : list event) : list Z :=
  omap (fun e =>
          match e with
          | EvLuminancePass _ factor => Some factor
          | _ => None
          end) evs.

(** The sample counts of the direct passes run. *)
Definition directRequests (evs : list event) : list Z :=
  omap (fun e =>
          match e with
          | EvRenderDirect _ _ n => Some n
          | _ => None
          end) evs.

(** Modelled from the spec: what [BidirectionalUtils::renderDirectComponent]
    does with the number of samples it is asked for is not part of the
    sources at hand.  The spec has a positive [directSamples] "rounded up
    to the next power of two" for the separate pass: the sample count of
    the pass is the least power of two that is not below the request. *)
Definition nextPowerOfTwo (n : Z) : Z := 2 ^ Z.log2_up n.


(** Modelled from the spec: the sample counts the direct passes of a run
    work with, each the request [render] made, rounded up inside the
    absent [renderDirectComponent]. *)
Definition directPassSamples (evs : list event) : list Z :=
  map nextPowerOfTwo (directRequests evs).

(** The resources registered with and released from the scheduler. *)
Definition registered (evs : list event) : list Z :=
  omap (fun e =>
          match e with
          | EvRegisterResource id => Some id
          | _ => None
          end) evs.

Definition unregistered (evs : list event) : list Z :=
  omap (fun e =>
          match e with
          | EvUnregisterResource id => Some id
          | _ => None
          end) evs.

(** The number of statistics dumps. *)
Definition dumps (evs : list event) : nat :=
  length (omap (fun e => match e with EvDump => Some tt | _ => None end) evs).

(** The last [n] events. *)
Definition lastEvents (n : nat) (evs : list event) : list event :=
  drop (length evs - n) evs.

(** The path samplers created: depth, Russian-roulette depth, whether
    direct illumination is left out, whether direct sampling is used. *)
Definition pathSamplers (evs : list event) : list (Z * Z * bool * bool) :=
  omap (fun e =>
          match e with
          | EvNewPathSampler d r x s => Some (d, r, x, s)
          | _ => None
          end) evs.

(** Further sample worlds: a nested first-stage run, a run with direct
    illumination hidden, and a small second scene. *)
Definition nestedWorld : World :=
  initial (withBoolean "firstStage" true
             (withBoolean "twoStage" true noProperties)).
Definition hiddenWorld : World :=
  initial (withInteger "directSamples" 0 noProperties).
Definition smallScene : Scene := sceneOf 64 64 1.

(** * Facts about the machine arithmetic *)

Section Rounding.

Lemma rne_bounds num den :
  0 < den ->
  2 * num - den <= 2 * den * rne num den <= 2 * num + den.
Proof.
  intros Hden. unfold rne.
  pose proof (Z.div_mod num den ltac:(lia)) as Hdm.
  pose proof (Z.mod_pos_bound num den Hden) as Hr.
  destruct (2 * (num mod den) <? den) eqn:E1; [apply Z.ltb_lt in E1; nia|].
  apply Z.ltb_ge in E1.
  destruct (den <? 2 * (num mod den)) eqn:E2; [apply Z.ltb_lt in E2; nia|].
  apply Z.ltb_ge in E2.
  destruct (Z.even (num / den)); nia.
Qed.

Lemma rne_le num den n :
  0 < den -> num <= n * den -> rne num den <= n.
Proof.
  intros Hden Hle. pose proof (rne_bounds num den Hden). nia.
Qed.

Lemma rne_ge num den n :
  0 < den -> n * den <= num -> n <= rne num den.
Proof.
  intros Hden Hle. pose proof (rne_bounds num den Hden). nia.
Qed.

Lemma rne_exact n den : 0 < den -> rne (n * den) den = n.
Proof.
  intros Hden. apply Z.le_antisymm; [apply rne_le | apply rne_ge]; lia.
Qed.

End Rounding.

Section Single.

Lemma f32_of_size_small n : n < 2 ^ 24 -> f32_of_size n = n.
Proof.
  intros H. unfold f32_of_size.
  destruct (n <? 2 ^ 24) eqn:E; [reflexivity|]. apply Z.ltb_ge in E. lia.
Qed.

Lemma f32_of_size_large n :
  2 ^ 24 <= n ->
  let e := Z.log2 n - 23 in
  1 <= e /\ f32_of_size n = rne n (2 ^ e) * 2 ^ e /\
  2 ^ 23 <= rne n (2 ^ e) <= 2 ^ 24.
Proof.
  intros H e.
  assert (Hn : 0 < n) by lia.
  pose proof (Z.log2_spec n Hn) as [Hlo Hhi].
  assert (Hl : 24 <= Z.log2 n).
  { change 24 with (Z.log2 (2 ^ 24)). apply Z.log2_le_mono. exact H. }
  assert (He : 1 <= e) by (unfold e; lia).
  assert (Hp : 0 < 2 ^ e) by (apply Z.pow_pos_nonneg; lia).
  assert (E1 : 2 ^ Z.log2 n = 2 ^ 23 * 2 ^ e).
  { rewrite <- Z.pow_add_r by lia. f_equal. unfold e. lia. }
  assert (E2 : 2 ^ Z.succ (Z.log2 n) = 2 ^ 24 * 2 ^ e).
  { rewrite <- Z.pow_add_r by lia. f_equal. unfold e. lia. }
  split; [exact He|]. split.
  - unfold f32_of_size.
    destruct (n <? 2 ^ 24) eqn:E; [apply Z.ltb_lt in E; lia | reflexivity].
  - split; [apply rne_ge | apply rne_le]; lia.
Qed.

Lemma f32_of_size_pos n : 0 < n -> 0 < f32_of_size n.
Proof.
  intros Hn. destruct (Z.lt_ge_cases n (2 ^ 24)) as [H|H].
  - rewrite f32_of_size_small by exact H. exact Hn.
  - destruct (f32_of_size_large n H) as (He & -> & Hm).
    assert (0 < 2 ^ (Z.log2 n - 23)) by (apply Z.pow_pos_nonneg; lia).
    nia.
Qed.

Lemma f32_of_size_log2 n k :
  24 <= k -> 0 < n < 2 ^ k -> f32_of_size n <= 2 ^ k.
Proof.
  intros Hk [Hn Hlt]. destruct (Z.lt_ge_cases n (2 ^ 24)) as [H|H].
  - rewrite f32_of_size_small by exact H. lia.
  - destruct (f32_of_size_large n H) as (He & -> & Hm).
    assert (Hl : Z.log2 n < k) by (apply Z.log2_lt_pow2; lia).
    assert (E : 2 ^ 24 * 2 ^ (Z.log2 n - 23) = 2 ^ (Z.log2 n + 1)).
    { rewrite <- Z.pow_add_r by lia. f_equal. lia. }
    assert (2 ^ (Z.log2 n + 1) <= 2 ^ k) by (apply Z.pow_le_mono_r; lia).
    assert (0 < 2 ^ (Z.log2 n - 23)) by (apply Z.pow_pos_nonneg; lia).
    nia.
Qed.

End Single.

Section Quotient.

Lemma pow2_split x y : 0 <= x -> 0 <= y -> 2 ^ (x + y) = 2 ^ x * 2 ^ y.
Proof. intros. apply Z.pow_add_r; assumption. Qed.

Lemma f32_div_200000_bounds a :
  0 < a ->
  1 <= fst (f32_div a 200000) <= 2 ^ 24 /\
  snd (f32_div a 200000) <= Z.log2 a - 40.
Proof.
  intros Ha. unfold f32_div.
  destruct (a =? 0) eqn:E0; [apply Z.eqb_eq in E0; lia|]. clear E0.
  change (Z.log2 200000) with 17.
  pose proof (Z.log2_spec a Ha) as [Hlo Hhi].
  pose proof (Z.log2_nonneg a) as Hl0.
  set (la := Z.log2 a) in *.
  set (e0 := la - 17 - 24).
  cbv zeta.
  assert (Hb1 : 2 ^ 17 <= 200000) by (vm_compute; discriminate).
  assert (Hb2 : 200000 < 2 ^ 18) by reflexivity.
  destruct (2 ^ 24 * (200000 * 2 ^ Z.max 0 e0) <=? a * 2 ^ Z.max 0 (- e0))
    eqn:Ec; cbn [fst snd]; unfold f32_scaled.
  - apply Z.leb_le in Ec. split; [|unfold e0; lia].
    assert (Hden : 0 < 200000 * 2 ^ Z.max 0 (e0 + 1)).
    { assert (0 < 2 ^ Z.max 0 (e0 + 1)) by (apply Z.pow_pos_nonneg; lia). lia. }
    split.
    + apply rne_ge; [exact Hden|].
      destruct (Z.le_gt_cases 0 (e0 + 1)) as [Hs|Hs].
      * rewrite (Z.max_r 0 (e0 + 1)), (Z.max_l 0 (- (e0 + 1))) by lia.
        assert (2 ^ (e0 + 1) * 2 ^ 18 <= 2 ^ la).
        { rewrite <- pow2_split by lia. apply Z.pow_le_mono_r; unfold e0; lia. }
        change (2 ^ 0) with 1. nia.
      * rewrite (Z.max_l 0 (e0 + 1)), (Z.max_r 0 (- (e0 + 1))) by lia.
        change (2 ^ 0) with 1.
        assert (2 ^ 18 <= 2 ^ la * 2 ^ (- (e0 + 1))).
        { rewrite <- pow2_split by lia. apply Z.pow_le_mono_r; unfold e0; lia. }
        assert (0 < 2 ^ (- (e0 + 1))) by (apply Z.pow_pos_nonneg; lia).
        nia.
    + apply rne_le; [exact Hden|].
      destruct (Z.le_gt_cases 0 (e0 + 1)) as [Hs|Hs].
      * rewrite (Z.max_r 0 (e0 + 1)), (Z.max_l 0 (- (e0 + 1))) by lia.
        change (2 ^ 0) with 1.
        assert (2 ^ Z.succ la = 2 ^ 24 * 2 ^ 17 * 2 ^ (e0 + 1)).
        { rewrite <- !pow2_split by lia. f_equal. unfold e0. lia. }
        assert (0 < 2 ^ (e0 + 1)) by (apply Z.pow_pos_nonneg; lia).
        nia.
      * rewrite (Z.max_l 0 (e0 + 1)), (Z.max_r 0 (- (e0 + 1))) by lia.
        change (2 ^ 0) with 1.
        assert (2 ^ Z.succ la * 2 ^ (- (e0 + 1)) = 2 ^ 24 * 2 ^ 17).
        { rewrite <- !pow2_split by lia. f_equal. unfold e0. lia. }
        assert (0 < 2 ^ (- (e0 + 1))) by (apply Z.pow_pos_nonneg; lia).
        nia.
  - apply Z.leb_gt in Ec. split; [|unfold e0; lia].
    assert (Hden : 0 < 200000 * 2 ^ Z.max 0 e0).
    { assert (0 < 2 ^ Z.max 0 e0) by (apply Z.pow_pos_nonneg; lia). lia. }
    split.
    + apply rne_ge; [exact Hden|].
      destruct (Z.le_gt_cases 0 e0) as [Hs|Hs].
      * rewrite (Z.max_r 0 e0), (Z.max_l 0 (- e0)) by lia.
        assert (2 ^ e0 * 2 ^ 18 <= 2 ^ la).
        { rewrite <- pow2_split by lia. apply Z.pow_le_mono_r; unfold e0; lia. }
        change (2 ^ 0) with 1. nia.
      * rewrite (Z.max_l 0 e0), (Z.max_r 0 (- e0)) by lia.
        change (2 ^ 0) with 1.
        assert (2 ^ 18 <= 2 ^ la * 2 ^ (- e0)).
        { rewrite <- pow2_split by lia. apply Z.pow_le_mono_r; unfold e0; lia. }
        assert (0 < 2 ^ (- e0)) by (apply Z.pow_pos_nonneg; lia).
        nia.
    + apply rne_le; [exact Hden|]. lia.
Qed.

End Quotient.

Section Ceiling.

Lemma ceil_div_spec a b :
  0 < b -> (ceil_div a b - 1) * b < a <= ceil_div a b * b.
Proof.
  intros Hb. unfold ceil_div.
  pose proof (Z.div_mod (- a) b ltac:(lia)).
  pose proof (Z.mod_pos_bound (- a) b Hb). nia.
Qed.

Lemma ceil_div_unique a b k :
  0 < b -> (k - 1) * b < a <= k * b -> ceil_div a b = k.
Proof.
  intros Hb H. pose proof (ceil_div_spec a b Hb). nia.
Qed.

Lemma f32_ceil_neg m e :
  e < 0 -> f32_ceil (m, e) = ceil_div m (2 ^ (- e)).
Proof.
  intros He. unfold f32_ceil, ceil_div.
  destruct (0 <=? e) eqn:E; [apply Z.leb_le in E; lia | reflexivity].
Qed.

Lemma f32_ceil_bounds m e :
  1 <= m <= 2 ^ 24 -> e <= 6 -> 1 <= f32_ceil (m, e) <= 2 ^ 30.
Proof.
  intros Hm He. destruct (Z.le_gt_cases 0 e) as [H|H].
  - unfold f32_ceil. destruct (0 <=? e) eqn:E; [|apply Z.leb_gt in E; lia].
    assert (0 < 2 ^ e) by (apply Z.pow_pos_nonneg; lia).
    assert (2 ^ e <= 2 ^ 6) by (apply Z.pow_le_mono_r; lia).
    change (2 ^ 30) with (2 ^ 24 * 2 ^ 6). nia.
  - rewrite f32_ceil_neg by exact H.
    assert (Hp : 0 < 2 ^ (- e)) by (apply Z.pow_pos_nonneg; lia).
    pose proof (ceil_div_spec m (2 ^ (- e)) Hp).
    assert (2 ^ 24 < 2 ^ 30) by reflexivity. nia.
Qed.

(** Below 128 * 200000 the rounded quotient has the ceiling of the exact
    one: the grid of single-precision numbers below 128 is finer than
    1 / 200000. *)
Lemma f32_quotient_ceil a :
  0 < a < 25600000 ->
  f32_ceil (f32_div a 200000) = ceil_div a 200000.
Proof.
  intros [Ha Hlt]. unfold f32_div.
  destruct (a =? 0) eqn:E0; [apply Z.eqb_eq in E0; lia|]. clear E0.
  change (Z.log2 200000) with 17.
  pose proof (Z.log2_spec a Ha) as [Hlo Hhi].
  pose proof (Z.log2_nonneg a) as Hl0.
  assert (Hla : Z.log2 a < 25).
  { apply Z.log2_lt_pow2; [lia|]. assert (25600000 < 2 ^ 25) by reflexivity. lia. }
  set (la := Z.log2 a) in *.
  set (e0 := la - 17 - 24). cbv zeta.
  assert (He : exists e,
    (if 2 ^ 24 * (200000 * 2 ^ Z.max 0 e0) <=? a * 2 ^ Z.max 0 (- e0)
     then e0 + 1 else e0) = e /\ e <= -17).
  { destruct (2 ^ 24 * (200000 * 2 ^ Z.max 0 e0) <=? a * 2 ^ Z.max 0 (- e0))
      eqn:Ec; eexists; (split; [reflexivity|]); [|unfold e0; lia].
    apply Z.leb_le in Ec.
    destruct (Z.eq_dec la 24) as [E24|]; [|unfold e0; lia].
    exfalso. unfold e0 in Ec. rewrite E24 in Ec.
    change (Z.max 0 (24 - 17 - 24)) with 0 in Ec.
    change (Z.max 0 (- (24 - 17 - 24))) with 17 in Ec.
    change (2 ^ 0) with 1 in Ec. change (2 ^ 17) with 131072 in Ec.
    change (2 ^ 24) with 16777216 in Ec. lia. }
  destruct He as (e & -> & He).
  rewrite f32_ceil_neg by lia. unfold f32_scaled.
  rewrite (Z.max_l 0 e), (Z.max_r 0 (- e)) by lia.
  change (2 ^ 0) with 1. rewrite Z.mul_1_r.
  assert (HP : 2 ^ 17 <= 2 ^ (- e)) by (apply Z.pow_le_mono_r; lia).
  change (2 ^ 17) with 131072 in HP.
  set (P := 2 ^ (- e)) in *.
  pose proof (ceil_div_spec a 200000 ltac:(lia)) as Hk.
  set (k := ceil_div a 200000) in *.
  pose proof (rne_bounds (a * P) 200000 ltac:(lia)) as Hm.
  apply ceil_div_unique; [lia|]. nia.
Qed.

End Ceiling.

Section WorkUnits.

Lemma wrap_small v : 0 <= v < 2 ^ 31 -> int_wrap (size_wrap v) = v.
Proof.
  intros H. unfold int_wrap, size_wrap.
  assert (2 ^ 31 < 2 ^ 64) by reflexivity.
  rewrite (Z.mod_small v) by lia.
  change (2 ^ 32) with (2 * 2 ^ 31).
  rewrite Z.mod_small by lia. lia.
Qed.

Lemma size_wrap_small v : 0 <= v < 2 ^ 64 -> size_wrap v = v.
Proof. intros H. apply Z.mod_small. exact H. Qed.

Lemma autoWorkUnits_range total :
  0 < total < 2 ^ 46 ->
  1 <= autoWorkUnits total <= 2 ^ 30.
Proof.
  intros Ht. unfold autoWorkUnits.
  pose proof (f32_of_size_pos total ltac:(lia)) as HF.
  pose proof (f32_of_size_log2 total 46 ltac:(lia) Ht) as HF2.
  destruct (f32_div_200000_bounds _ HF) as [Hm He].
  assert (Hl : Z.log2 (f32_of_size total) <= 46).
  { change 46 with (Z.log2 (2 ^ 46)). apply Z.log2_le_mono. exact HF2. }
  destruct (f32_div (f32_of_size total) 200000) as [m e]. cbn [fst snd] in *.
  pose proof (f32_ceil_bounds m e Hm ltac:(lia)) as Hc.
  assert (2 ^ 30 < 2 ^ 31) by reflexivity.
  rewrite wrap_small by lia. exact Hc.
Qed.

Lemma autoWorkUnits_exact total :
  0 < total <= 16800000 ->
  autoWorkUnits total = ceil_div total 200000.
Proof.
  intros [Hpos Hle]. unfold autoWorkUnits.
  assert (HF : 0 < f32_of_size total < 25600000 /\
               ceil_div (f32_of_size total) 200000 = ceil_div total 200000).
  { destruct (Z.lt_ge_cases total (2 ^ 24)) as [H|H].
    - rewrite f32_of_size_small by exact H. lia.
    - destruct (f32_of_size_large total H) as (_ & -> & _).
      assert (Hl : Z.log2 total = 24).
      { apply Z.log2_unique; [lia|]. change (2 ^ (24 + 1)) with 33554432. lia. }
      rewrite Hl. change (2 ^ (24 - 23)) with 2.
      pose proof (rne_bounds total 2 ltac:(lia)) as Hb.
      pose proof (rne_le total 2 8400000 ltac:(lia) ltac:(lia)) as Hu.
      change (2 ^ 24) with 16777216 in H.
      split; [lia|].
      transitivity 84; [|symmetry]; apply ceil_div_unique; lia. }
  destruct HF as [HF Hc].
  rewrite f32_quotient_ceil by exact HF. rewrite Hc.
  pose proof (ceil_div_spec total 200000 ltac:(lia)) as Hk.
  apply wrap_small. change (2 ^ 31) with 2147483648. lia.
Qed.

Lemma pixelSamples_exact scene :
  let x := fst (cropSize scene) in
  let y := snd (cropSize scene) in
  0 <= x -> 0 <= y -> x * y < 2 ^ 31 ->
  0 <= sampleCount scene -> x * y * sampleCount scene < 2 ^ 64 ->
  pixelSamples scene = x * y * sampleCount scene.
Proof.
  intros x y Hx Hy Hxy Hs Ht. unfold pixelSamples, size_mul, int_mul.
  fold x y. assert (0 <= x * y) by nia.
  assert (E : int_wrap (x * y) = x * y).
  { unfold int_wrap. change (2 ^ 32) with (2 * 2 ^ 31).
    rewrite Z.mod_small by lia. lia. }
  rewrite E. assert (2 ^ 31 < 2 ^ 64) by reflexivity.
  rewrite (size_wrap_small (x * y)) by lia.
  apply size_wrap_small. nia.
Qed.

End WorkUnits.

(** The derived number of work units fits an [int] below [budgetLimit]:
    the quotient by 200000 then stays below 2^31, where neighbouring
    single-precision numbers are 128 apart. *)
Section Limit.

Lemma rne_below num den n :
  0 < den -> 2 * num < (2 * n + 1) * den -> rne num den <= n.
Proof.
  intros Hd H. unfold rne.
  pose proof (Z.div_mod num den ltac:(lia)) as Hq.
  pose proof (Z.mod_pos_bound num den Hd) as Hr.
  destruct (2 * (num mod den) <? den) eqn:E1;
    [apply Z.ltb_lt in E1 | apply Z.ltb_ge in E1].
  - nia.
  - assert (num / den + 1 <= n) by nia.
    destruct (den <? 2 * (num mod den)); [lia|].
    destruct (Z.even (num / den)); lia.
Qed.

Lemma f32_of_size_below t :
  0 < t < budgetLimit -> 0 < f32_of_size t <= 2 ^ 31 * 200000 - 2 ^ 25.
Proof.
  intros [Hpos Hlt]. split; [apply f32_of_size_pos; exact Hpos|].
  unfold budgetLimit in Hlt.
  change (2 ^ 31 * 200000 - 2 ^ 24) with 429496712822784 in Hlt.
  change (2 ^ 31 * 200000 - 2 ^ 25) with 429496696045568.
  destruct (Z.lt_ge_cases t (2 ^ 48)) as [H | H].
  - pose proof (f32_of_size_log2 t 48 ltac:(lia) ltac:(lia)) as Hb.
    change (2 ^ 48) with 281474976710656 in Hb. lia.
  - assert (H24 : 2 ^ 24 <= t).
    { assert (2 ^ 24 < 2 ^ 48) by reflexivity. lia. }
    destruct (f32_of_size_large t H24) as (_ & -> & _).
    assert (Hl : Z.log2 t = 48).
    { apply Z.log2_unique; [lia|].
      change (2 ^ (48 + 1)) with 562949953421312. lia. }
    rewrite Hl. change (2 ^ (48 - 23)) with 33554432.
    pose proof (rne_below t 33554432 12799999 ltac:(lia) ltac:(lia)). lia.
Qed.

Lemma f32_div_scaled a b :
  a <> 0 -> fst (f32_div a b) = f32_scaled a b (snd (f32_div a b)).
Proof.
  intros Ha. unfold f32_div.
  destruct (a =? 0) eqn:E; [apply Z.eqb_eq in E; contradiction|].
  reflexivity.
Qed.

Lemma f32_div_200000_exponent a :
  0 < a < 2 ^ 31 * 200000 -> snd (f32_div a 200000) <= 7.
Proof.
  intros [Ha Hlt].
  change (2 ^ 31 * 200000) with 429496729600000 in Hlt.
  assert (Hla : Z.log2 a < 49).
  { apply Z.log2_lt_pow2; [lia|]. change (2 ^ 49) with 562949953421312. lia. }
  destruct (Z.eq_dec (Z.log2 a) 48) as [E | Hne].
  - unfold f32_div.
    destruct (a =? 0) eqn:E0; [apply Z.eqb_eq in E0; lia|].
    change (Z.log2 200000) with 17. rewrite E.
    change (48 - 17 - 24) with 7. change (Z.max 0 7) with 7.
    change (Z.max 0 (- (7))) with 0. change (2 ^ 0) with 1.
    change (2 ^ 24 * (200000 * 2 ^ 7)) with 429496729600000.
    destruct (429496729600000 <=? a * 1) eqn:Ec;
      [apply Z.leb_le in Ec; lia | cbn [snd]; lia].
  - destruct (f32_div_200000_bounds a Ha) as [_ He]. lia.
Qed.

Lemma f32_quotient_fits a :
  0 < a <= 2 ^ 31 * 200000 - 2 ^ 25 ->
  1 <= f32_ceil (f32_div a 200000) <= 2 ^ 31 - 128.
Proof.
  intros [Ha Hle].
  change (2 ^ 31 * 200000 - 2 ^ 25) with 429496696045568 in Hle.
  pose proof (f32_div_200000_exponent a) as He.
  change (2 ^ 31 * 200000) with 429496729600000 in He.
  specialize (He ltac:(lia)).
  destruct (f32_div_200000_bounds a Ha) as [Hm _].
  pose proof (f32_div_scaled a 200000 ltac:(lia)) as Hs.
  destruct (f32_div a 200000) as [m e]. cbn [fst snd] in *.
  destruct (Z.eq_dec e 7) as [-> | Hne].
  - unfold f32_scaled in Hs.
    change (Z.max 0 (- (7))) with 0 in Hs. change (Z.max 0 7) with 7 in Hs.
    change (2 ^ 0) with 1 in Hs. change (200000 * 2 ^ 7) with 25600000 in Hs.
    pose proof (rne_below (a * 1) 25600000 16777215 ltac:(lia) ltac:(lia))
      as Hb.
    rewrite <- Hs in Hb.
    unfold f32_ceil. change (0 <=? 7) with true. cbv iota.
    change (2 ^ 7) with 128. change (2 ^ 31 - 128) with 2147483520. lia.
  - pose proof (f32_ceil_bounds m e Hm ltac:(lia)) as Hc.
    change (2 ^ 30) with 1073741824 in Hc.
    change (2 ^ 31 - 128) with 2147483520. lia.
Qed.

Lemma autoWorkUnits_fits t :
  0 < t < budgetLimit -> 1 <= autoWorkUnits t <= 2 ^ 31 - 128.
Proof.
  intros Ht. unfold autoWorkUnits.
  pose proof (f32_quotient_fits _ (f32_of_size_below t Ht)) as Hc.
  rewrite wrap_small; [exact Hc|].
  change (2 ^ 31 - 128) with 2147483520 in Hc.
  change (2 ^ 31) with 2147483648. lia.
Qed.

End Limit.

(** * The operations, step by step *)

Ltac mred :=
  cbn beta iota zeta delta
    [fst snd app self rng m_config m_process m_nestedJob
     maxDepth twoStage firstStageSizeReduction firstStage luminanceSamples
     directSamples separateDirect workUnits bidirectionalMutation
     lensPerturbation causticPerturbation multiChainPerturbation
     manifoldPerturbation probFactor timeout nMutations luminance
     importanceMap set_workUnits set_nMutations set_luminance
     set_importanceMap clear with_config
     result_of world_of events_of config_of after].

Ltac mred_in H :=
  cbn beta iota zeta delta
    [fst snd app self rng m_config m_process m_nestedJob
     maxDepth twoStage firstStageSizeReduction firstStage luminanceSamples
     directSamples separateDirect workUnits bidirectionalMutation
     lensPerturbation causticPerturbation multiChainPerturbation
     manifoldPerturbation probFactor timeout nMutations luminance
     importanceMap set_workUnits set_nMutations set_luminance
     set_importanceMap clear with_config
     result_of world_of events_of config_of after] in H.

Ltac mstep :=
  unfold bind, ret, emit, get_config, get_self, modify_config, set_process,
    set_nestedJob, raise, lift_option, Log, Assert, generateSeeds,
    renderDirectComponent, mltLuminancePass;
  mred.

Section Monad.

Lemma bind_ret_l {A B} (a : A) (k : A -> M B) w : bind (ret a) k w = k a w.
Proof. unfold bind, ret. destruct (k a w) as [[r w'] evs]. reflexivity. Qed.

Lemma bind_ret_r {A} (m : M A) w : bind m ret w = m w.
Proof.
  unfold bind, ret. destruct (m w) as [[[a | f] w'] evs]; [|reflexivity].
  rewrite app_nil_r. reflexivity.
Qed.

Lemma bind_assoc {A B C} (m : M A) (k : A -> M B) (h : B -> M C) w :
  bind (bind m k) h w = bind m (fun a => bind (k a) h) w.
Proof.
  unfold bind. destruct (m w) as [[[a | f] w1] evs1]; [|reflexivity].
  destruct (k a w1) as [[[b | f] w2] evs2]; [|reflexivity].
  destruct (h b w2) as [[r w3] evs3]. rewrite app_assoc. reflexivity.
Qed.

Lemma bind_raise {A B} (f : fault) (k : A -> M B) w :
  bind (raise f) k w = (Fault f, w, []).
Proof. reflexivity. Qed.

End Monad.

Section Budget.

Lemma size_div_pos a b : 0 < b -> size_div a b = Some (a / b).
Proof.
  intros H. unfold size_div.
  destruct (b =? 0) eqn:E; [apply Z.eqb_eq in E; lia | reflexivity].
Qed.

Lemma deriveBudget_auto scene w :
  workUnits (m_config (self w)) <= 0 ->
  deriveBudget scene w =
  let c := set_workUnits (autoWorkUnits (pixelSamples scene))
             (m_config (self w)) in
  match size_div (pixelSamples scene) (size_wrap (workUnits c)) with
  | Some n => (Ok tt, with_config (set_nMutations n c) w, [])
  | None => (Fault DivisionByZero, with_config c w, [])
  end.
Proof.
  intros H. apply Z.leb_le in H. unfold deriveBudget.
  generalize (autoWorkUnits (pixelSamples scene)).
  generalize (pixelSamples scene). intros total units.
  mstep. rewrite H. destruct (size_div _ _); reflexivity.
Qed.

Lemma deriveBudget_given scene w :
  0 < workUnits (m_config (self w)) ->
  deriveBudget scene w =
  let c := m_config (self w) in
  match size_div (pixelSamples scene) (size_wrap (workUnits c)) with
  | Some n => (Ok tt, with_config (set_nMutations n c) w, [])
  | None => (Fault DivisionByZero, w, [])
  end.
Proof.
  intros H. apply Z.leb_gt in H. unfold deriveBudget.
  generalize (autoWorkUnits (pixelSamples scene)).
  generalize (pixelSamples scene). intros total units.
  mstep. rewrite H. destruct (size_div _ _); reflexivity.
Qed.

Lemma sameTunables_refl c : sameTunables c c.
Proof. reflexivity. Qed.

(** [deriveBudget] writes nothing but the two derived counts, causes no
    event, and either completes or divides by zero. *)
Lemma deriveBudget_frame scene w :
  exists r w',
    deriveBudget scene w = (r, w', []) /\
    (r = Ok tt \/ r = Fault DivisionByZero) /\
    rng w' = rng w /\
    m_process (self w') = m_process (self w) /\
    m_nestedJob (self w') = m_nestedJob (self w) /\
    sameTunables (m_config (self w)) (m_config (self w')).
Proof.
  destruct (Z.le_gt_cases (workUnits (m_config (self w))) 0) as [H|H].
  - rewrite deriveBudget_auto by exact H. cbv zeta.
    destruct (size_div _ _); do 2 eexists; (split; [reflexivity|]);
      repeat split; auto.
  - rewrite deriveBudget_given by exact H. cbv zeta.
    destruct (size_div _ _); do 2 eexists; (split; [reflexivity|]);
      repeat split; auto.
Qed.

Lemma wellFormed_total scene :
  wellFormed scene ->
  pixelSamples scene = totalSamples scene /\ 0 < totalSamples scene < 2 ^ 46.
Proof.
  unfold wellFormed, totalSamples. intros (Hx & Hy & Hxy & Hs & Ht).
  assert (2 ^ 46 < 2 ^ 64) by reflexivity.
  split; [apply pixelSamples_exact; lia | nia].
Qed.

(** On a well-formed scene [deriveBudget] completes, with a positive
    number of work units. *)
Lemma deriveBudget_wellFormed scene w :
  wellFormed scene -> is_int (workUnits (m_config (self w))) ->
  exists w',
    deriveBudget scene w = (Ok tt, w', []) /\
    0 < workUnits (m_config (self w')) < 2 ^ 31 /\
    workUnits (m_config (self w')) =
      (if workUnits (m_config (self w)) <=? 0
       then autoWorkUnits (totalSamples scene)
       else workUnits (m_config (self w))) /\
    nMutations (m_config (self w')) =
      totalSamples scene / workUnits (m_config (self w')).
Proof.
  intros Hwf Hint. destruct (wellFormed_total scene Hwf) as [Ep Ht].
  unfold is_int in Hint. assert (2 ^ 31 < 2 ^ 64) by reflexivity.
  destruct (Z.le_gt_cases (workUnits (m_config (self w))) 0) as [H0|H0].
  - pose proof (autoWorkUnits_range _ Ht) as Hr.
    assert (2 ^ 30 < 2 ^ 31) by reflexivity.
    rewrite deriveBudget_auto by exact H0. rewrite Ep. mred.
    apply Z.leb_le in H0. rewrite H0.
    rewrite size_wrap_small, size_div_pos by lia.
    eexists. split; [reflexivity|]. mred. repeat split; lia.
  - rewrite deriveBudget_given by exact H0. rewrite Ep. mred.
    apply Z.leb_gt in H0. rewrite H0.
    rewrite size_wrap_small, size_div_pos by lia.
    eexists. split; [reflexivity|]. mred. repeat split; lia.
Qed.

End Budget.

Section Render.

Variable sv : Services.
Variable scene : Scene.
Variables sceneResID sensorResID samplerResID : Z.

Lemma runChains_eq nested img w :
  runChains sv nested sceneResID sensorResID samplerResID img w =
  let c := m_config (self w) in
  (Ok (processSucceeds sv (scheduledConfig sv w) img (scheduledSeeds sv w)),
   {| self := {| m_process := None;
                 m_nestedJob := m_nestedJob (self w);
                 m_config := scheduledConfig sv w |};
      rng := snd (secondPass sv (rng w) (luminanceSamples c) (workUnits c)) |},
   [EvNewReplayableSampler;
    EvNewPathSampler (maxDepth c) 10 (separateDirect c) true;
    EvNewProcess (newProcess sv) img;
    EvGenerateSeeds (luminanceSamples c) (workUnits c) false;
    EvGenerateSeeds (luminanceSamples c) (workUnits c) true]
   ++ (if nested then [] else [EvDump])
   ++ [EvRegisterResource (rplSamplerResID sv);
       EvBindResource "scene" sceneResID;
       EvBindResource "sensor" sensorResID;
       EvBindResource "sampler" samplerResID;
       EvBindResource "rplSampler" (rplSamplerResID sv);
       EvSchedule (newProcess sv) (scheduledConfig sv w) img (scheduledSeeds sv w);
       EvWait (newProcess sv);
       EvDevelop (newProcess sv);
       EvUnregisterResource (rplSamplerResID sv)]).
Proof.
  unfold runChains, scheduledConfig, scheduledSeeds, secondPass, firstPass. mstep.
  destruct (seedGenerator sv (rng w) _ _ false) as [[l1 s1] r1]. mred.
  destruct (seedGenerator sv r1 _ _ true) as [[l2 s2] r2]. mred.
  destruct nested; reflexivity.
Qed.

Lemma renderMain_eq w :
  renderMain sv scene sceneResID sensorResID samplerResID w =
  let c := m_config (self w) in
  let nested := twoStage c && firstStage c in
  let start :=
    EvStartMessage nested (cropSize scene) (coreCount sv)
      (sampleCount scene) in
  match deriveBudget scene w with
  | (Ok _, w1, _) =>
      let c1 := m_config (self w1) in
      if separateDirect c1 && (0 <? directSamples c1) && negb nested
      then
        match directComponent sv (directSamples c1) with
        | None =>
            (Ok false, w1,
             [start; EvRenderDirect sceneResID sensorResID (directSamples c1)])
        | Some img =>
            after
              [start; EvRenderDirect sceneResID sensorResID (directSamples c1)]
              (runChains sv nested sceneResID sensorResID samplerResID
                 (Some img) w1)
        end
      else
        after [start]
          (runChains sv nested sceneResID sensorResID samplerResID None w1)
  | (Fault f, w1, _) => (Fault f, w1, [start])
  end.
Proof.
  destruct (deriveBudget_frame scene w) as (r & w1 & E & Hr & _).
  unfold renderMain. mstep. rewrite E.
  destruct Hr as [-> | ->]; [|reflexivity]. mred.
  destruct (separateDirect (m_config (self w1))
            && (0 <? directSamples (m_config (self w1)))
            && negb (twoStage (m_config (self w)) && firstStage (m_config (self w)))).
  - mstep. destruct (directComponent sv _); [|reflexivity].
    destruct (runChains _ _ _ _ _ _ _) as [[r2 w2] evs2]. reflexivity.
  - destruct (runChains _ _ _ _ _ _ _) as [[r2 w2] evs2]. reflexivity.
Qed.

Lemma render_eq w :
  render sv scene sceneResID sensorResID samplerResID w =
  let c := m_config (self w) in
  let factor := firstStageSizeReduction c in
  let w0 := with_config (set_importanceMap None c) w in
  if twoStage c && negb (firstStage c)
  then
    if assertionsEnabled sv && negb (0 <? factor)
    then
      (Fault (FatalError
                "Assertion failed: m_config.firstStageSizeReduction > 0"),
       w0,
       [EvLog EInfo "Executing first MLT stage";
        EvLog EError
          "Assertion failed: m_config.firstStageSizeReduction > 0"])
    else
      let w1 :=
        {| self := {| m_process := m_process (self w);
                      m_nestedJob := None;
                      m_config :=
                        set_importanceMap (nestedImage sv true factor)
                          (set_importanceMap None c) |};
           rng := rng w |} in
      match nestedImage sv true factor with
      | None =>
          (Ok false, w1,
           [EvLog EInfo "Executing first MLT stage";
            EvLuminancePass true factor;
            EvLog EWarn "First-stage MLT process failed!"])
      | Some _ =>
          after
            [EvLog EInfo "Executing first MLT stage";
             EvLuminancePass true factor;
             EvLog EInfo "First MLT stage took %i ms"]
            (renderMain sv scene sceneResID sensorResID samplerResID w1)
      end
  else renderMain sv scene sceneResID sensorResID samplerResID w0.
Proof.
  unfold render. mstep.
  destruct (twoStage (m_config (self w)) && negb (firstStage (m_config (self w)))).
  - mstep.
    destruct (assertionsEnabled sv
              && negb (0 <? firstStageSizeReduction (m_config (self w)))).
    + reflexivity.
    + mred. destruct (nestedImage sv true _).
      * mstep. destruct (renderMain _ _ _ _ _ _) as [[r2 w2] evs2]. reflexivity.
      * reflexivity.
  - destruct (renderMain _ _ _ _ _ _) as [[r2 w2] evs2]. reflexivity.
Qed.

End Render.

(** * What the scheduled process works with *)

Ltac find_event H :=
  repeat (destruct H as [H | H]; [try discriminate H |]);
  try contradiction.

Section Schedule.

Variable sv : Services.
Variable scene : Scene.
Variables sceneResID sensorResID samplerResID : Z.

Lemma runChains_schedule nested img0 w p c img seeds :
  In (EvSchedule p c img seeds)
     (events_of (runChains sv nested sceneResID sensorResID samplerResID
                   img0 w)) ->
  p = newProcess sv /\ c = scheduledConfig sv w /\ img = img0 /\
  seeds = scheduledSeeds sv w.
Proof.
  rewrite runChains_eq. mred. intros H.
  find_event H.
  apply in_app_or in H. destruct H as [H | H].
  - destruct nested; find_event H.
  - find_event H. inversion H. repeat split; reflexivity.
Qed.

Lemma runChains_config nested img0 w :
  config_of (runChains sv nested sceneResID sensorResID samplerResID img0 w)
  = scheduledConfig sv w.
Proof. rewrite runChains_eq. reflexivity. Qed.

(** A process scheduled by [renderMain] started in [w]: the budget was
    derived into some state [w1], and the process works with what
    [runChains] makes of [w1]. *)
Lemma renderMain_schedule w p c img seeds :
  In (EvSchedule p c img seeds)
     (events_of (renderMain sv scene sceneResID sensorResID samplerResID w)) ->
  exists w1,
    deriveBudget scene w = (Ok tt, w1, []) /\
    p = newProcess sv /\ c = scheduledConfig sv w1 /\
    seeds = scheduledSeeds sv w1 /\
    config_of (renderMain sv scene sceneResID sensorResID samplerResID w) = c.
Proof.
  rewrite renderMain_eq. cbv zeta.
  destruct (deriveBudget_frame scene w) as (r & w1 & E & Hr & _).
  rewrite E. destruct Hr as [-> | ->]; [|mred; intros H; find_event H].
  destruct (separateDirect (m_config (self w1))
            && (0 <? directSamples (m_config (self w1)))
            && negb (twoStage (m_config (self w)) && firstStage (m_config (self w)))).
  - destruct (directComponent sv _) as [bmp|];
      [|mred; intros H; find_event H].
    unfold after at 1. unfold events_of at 1. cbn [snd app]. intros H.
    find_event H. apply runChains_schedule in H.
    destruct H as (-> & -> & _ & ->).
    exists w1. repeat split; try reflexivity.
    unfold after, config_of, world_of. cbn [fst snd].
    apply runChains_config.
  - unfold after at 1. unfold events_of at 1. cbn [snd app]. intros H.
    find_event H. apply runChains_schedule in H.
    destruct H as (-> & -> & _ & ->).
    exists w1. repeat split; try reflexivity.
    unfold after, config_of, world_of. cbn [fst snd].
    apply runChains_config.
Qed.

(** The same for [render]: [renderMain] was entered in [mainEntry]. *)
Lemma render_schedule w p c img seeds :
  In (EvSchedule p c img seeds)
     (events_of (render sv scene sceneResID sensorResID samplerResID w)) ->
  exists w1,
    deriveBudget scene (mainEntry sv w) = (Ok tt, w1, []) /\
    p = newProcess sv /\ c = scheduledConfig sv w1 /\
    seeds = scheduledSeeds sv w1 /\
    config_of (render sv scene sceneResID sensorResID samplerResID w) = c /\
    (firstStageDue (m_config (self w)) = true ->
     nestedImage sv true (firstStageSizeReduction (m_config (self w)))
     <> None).
Proof.
  rewrite render_eq. cbv zeta. unfold mainEntry, firstStageDue.
  destruct (twoStage (m_config (self w)) && negb (firstStage (m_config (self w)))).
  - destruct (assertionsEnabled sv && negb _);
      [mred; intros H; find_event H|].
    destruct (nestedImage sv true _) as [bmp|] eqn:En;
      [|mred; intros H; find_event H].
    unfold after at 1. unfold events_of at 1. cbn [snd app]. intros H.
    find_event H. apply renderMain_schedule in H.
    destruct H as (w1 & E & -> & -> & -> & Hc).
    exists w1. repeat split; try reflexivity; try exact E.
    + unfold after, config_of, world_of. cbn [fst snd]. exact Hc.
    + discriminate.
  - intros H. apply renderMain_schedule in H.
    destruct H as (w1 & E & -> & -> & -> & Hc).
    exists w1. repeat split; try reflexivity; try exact E; try exact Hc.
    discriminate.
Qed.

End Schedule.

(** * The mutation budget *)

Section BudgetClaims.

Lemma accountable_total scene units :
  accountable scene units ->
  pixelSamples scene = totalSamples scene /\ 0 <= totalSamples scene.
Proof.
  unfold accountable, totalSamples. intros (Hx & Hy & Hxy & Hs & Ht & _).
  split; [apply pixelSamples_exact; assumption | nia].
Qed.

(** Every well-formed scene is in that domain, whatever the configured
    number of work units. *)
Lemma wellFormed_accountable scene units :
  wellFormed scene -> accountable scene units.
Proof.
  unfold wellFormed, accountable, totalSamples, budgetLimit.
  intros (Hx & Hy & Hxy & Hs & Ht).
  assert (2 ^ 46 < 2 ^ 64) by reflexivity.
  assert (2 ^ 46 < 2 ^ 31 * 200000 - 2 ^ 24) by reflexivity.
  repeat split; try lia; nia.
Qed.

(** C1, as stated, fails: on a 32768 x 32768 crop at 524288 samples per
    pixel no count of the scene wraps, yet the 2814749696 work units
    derived do not fit the [int] field, which holds -1480217600; the
    divisor of the [size_t] division is then 2^64 - 1480217600 and
    [nMutations] is 0, neither the quotient nor within [workUnits] of
    the 2^49 pixel samples. *)
Lemma budget_not_accounted :
  is_int (workUnits (m_config (self (initial noProperties)))) /\
  pixelSamples (sceneOf 32768 32768 524288)
    = totalSamples (sceneOf 32768 32768 524288) /\
  totalSamples (sceneOf 32768 32768 524288) = 2 ^ 49 /\
  result_of (deriveBudget (sceneOf 32768 32768 524288) (initial noProperties))
    = Ok tt /\
  workUnits (config_of (deriveBudget (sceneOf 32768 32768 524288)
                          (initial noProperties))) = -1480217600 /\
  nMutations (config_of (deriveBudget (sceneOf 32768 32768 524288)
                           (initial noProperties))) = 0 /\
  nMutations (config_of (deriveBudget (sceneOf 32768 32768 524288)
                           (initial noProperties)))
    <> totalSamples (sceneOf 32768 32768 524288)
       / workUnits (config_of (deriveBudget (sceneOf 32768 32768 524288)
                                 (initial noProperties))) /\
  ~ Z.abs (workUnits (config_of (deriveBudget (sceneOf 32768 32768 524288)
                                   (initial noProperties)))
           * nMutations (config_of (deriveBudget
                                      (sceneOf 32768 32768 524288)
                                      (initial noProperties)))
           - totalSamples (sceneOf 32768 32768 524288))
      < workUnits (config_of (deriveBudget (sceneOf 32768 32768 524288)
                                (initial noProperties))).
Proof. vm_compute. repeat split; easy. Qed.

(** C1, amended: for every configuration and every scene whose counts do
    not wrap - with at least one pixel sample and fewer than
    [budgetLimit] where the number of work units is derived - [render]
    computes the derived fields, [workUnits] is positive and
    [nMutations] is the integer quotient of the number of pixel samples
    by [workUnits]; [workUnits * nMutations] falls short of that number
    by less than [workUnits] and never exceeds it. *)
Theorem budget_accounted (scene : Scene) (w : World) :
  accountable scene (workUnits (m_config (self w))) ->
  is_int (workUnits (m_config (self w))) ->
  exists w',
    deriveBudget scene w = (Ok tt, w', []) /\
    0 < workUnits (m_config (self w')) /\
    nMutations (m_config (self w')) =
      totalSamples scene / workUnits (m_config (self w')) /\
    workUnits (m_config (self w')) * nMutations (m_config (self w'))
      - totalSamples scene <= 0 /\
    Z.abs (workUnits (m_config (self w')) * nMutations (m_config (self w'))
           - totalSamples scene)
      < workUnits (m_config (self w')).
Proof.
  intros Hacc Hint. destruct (accountable_total _ _ Hacc) as [Ep Hnn].
  assert (Hstep : exists w',
    deriveBudget scene w = (Ok tt, w', []) /\
    0 < workUnits (m_config (self w')) /\
    nMutations (m_config (self w')) =
      totalSamples scene / workUnits (m_config (self w'))).
  { unfold is_int in Hint. assert (2 ^ 31 < 2 ^ 64) by reflexivity.
    destruct (Z.le_gt_cases (workUnits (m_config (self w))) 0) as [H0 | H0].
    - destruct Hacc as (_ & _ & _ & _ & _ & Hlim).
      pose proof (autoWorkUnits_fits _ (Hlim H0)) as Hr.
      rewrite deriveBudget_auto by exact H0. rewrite Ep. mred.
      rewrite size_wrap_small, size_div_pos by lia.
      eexists. split; [reflexivity|]. mred. split; [lia | reflexivity].
    - rewrite deriveBudget_given by exact H0. rewrite Ep. mred.
      rewrite size_wrap_small, size_div_pos by lia.
      eexists. split; [reflexivity|]. mred. split; [lia | reflexivity]. }
  destruct Hstep as (w' & E & Hu & Hn).
  exists w'. split; [exact E|]. rewrite Hn.
  set (u := workUnits (m_config (self w'))) in *.
  pose proof (Z.div_mod (totalSamples scene) u ltac:(lia)).
  pose proof (Z.mod_pos_bound (totalSamples scene) u ltac:(lia)).
  repeat split; lia.
Qed.

Lemma budget_accounted_witness :
  accountable (sceneOf 512 512 4)
    (workUnits (m_config (self (initial noProperties)))) /\
  is_int (workUnits (m_config (self (initial noProperties)))) /\
  exists w',
    deriveBudget (sceneOf 512 512 4) (initial noProperties) = (Ok tt, w', [])
    /\ 0 < workUnits (m_config (self w'))
    /\ nMutations (m_config (self w')) =
         totalSamples (sceneOf 512 512 4) / workUnits (m_config (self w'))
    /\ workUnits (m_config (self w')) * nMutations (m_config (self w'))
         - totalSamples (sceneOf 512 512 4) <= 0
    /\ Z.abs (workUnits (m_config (self w')) * nMutations (m_config (self w'))
              - totalSamples (sceneOf 512 512 4))
         < workUnits (m_config (self w')).
Proof.
  assert (H1 : accountable (sceneOf 512 512 4)
                 (workUnits (m_config (self (initial noProperties)))))
    by (vm_compute; repeat split; easy).
  assert (H2 : is_int (workUnits (m_config (self (initial noProperties)))))
    by (vm_compute; easy).
  split; [exact H1|]. split; [exact H2|].
  exact (budget_accounted (sceneOf 512 512 4) (initial noProperties) H1 H2).
Defined.

(** The bound of the amended C1 is the largest one: one pixel sample
    below [budgetLimit] the derived number of work units is the largest
    single-precision number below 2^31; at [budgetLimit], which a
    4096 x 4096 crop at 25599999 samples per pixel reaches, it is 2^31
    and wraps. *)
Lemma budget_limit_is_tight :
  autoWorkUnits (budgetLimit - 1) = 2 ^ 31 - 128 /\
  autoWorkUnits budgetLimit = - 2 ^ 31 /\
  totalSamples (sceneOf 4096 4096 25599999) = budgetLimit /\
  nMutations (config_of (deriveBudget (sceneOf 4096 4096 25599999)
                           (initial noProperties))) = 0.
Proof. vm_compute. repeat split; reflexivity. Qed.

(** The budget of every process [render] schedules on a well-formed
    scene. *)
Lemma scheduled_budget sv scene sceneResID sensorResID samplerResID
    (w : World) p c img seeds :
  wellFormed scene ->
  is_int (workUnits (m_config (self w))) ->
  In (EvSchedule p c img seeds)
     (events_of (render sv scene sceneResID sensorResID samplerResID w)) ->
  0 < workUnits c /\
  nMutations c = totalSamples scene / workUnits c /\
  0 <= totalSamples scene - workUnits c * nMutations c < workUnits c.
Proof.
  intros Hwf Hint H. apply render_schedule in H.
  destruct H as (w1 & E & _ & -> & _).
  assert (Hint0 : is_int (workUnits (m_config (self (mainEntry sv w))))).
  { unfold mainEntry. destruct (firstStageDue (m_config (self w))); exact Hint. }
  destruct (deriveBudget_wellFormed scene (mainEntry sv w) Hwf Hint0)
    as (w1' & E' & Hu & _ & Hn).
  rewrite E in E'. inversion E'. subst w1'. clear E'.
  unfold scheduledConfig. mred. rewrite Hn.
  set (u := workUnits (m_config (self w1))) in *.
  pose proof (Z.div_mod (totalSamples scene) u ltac:(lia)).
  pose proof (Z.mod_pos_bound (totalSamples scene) u ltac:(lia)).
  repeat split; lia.
Qed.

(** With a zero sample count and no configured number of work units the
    derivation divides by zero. *)
Lemma budget_division_by_zero :
  result_of (deriveBudget (sceneOf 512 512 0) (initial noProperties))
  = Fault DivisionByZero.
Proof. vm_compute. reflexivity. Qed.

(** C3, as stated, fails: on a 1296 x 1616 crop at 1024 samples per pixel
    the single-precision quotient 10723.00032 rounds to 10723, and the
    derived number of work units is 10723, not the ceiling 10724. *)
Lemma workUnits_not_the_ceiling :
  workUnits (m_config (self (initial noProperties))) <= 0 /\
  result_of (deriveBudget (sceneOf 1296 1616 1024) (initial noProperties))
    = Ok tt /\
  workUnits (config_of (deriveBudget (sceneOf 1296 1616 1024)
                          (initial noProperties)))
    <> ceil_div (totalSamples (sceneOf 1296 1616 1024)) 200000 /\
  workUnits (config_of (deriveBudget (sceneOf 1296 1616 1024)
                          (initial noProperties)))
    = 10723 /\
  ceil_div (totalSamples (sceneOf 1296 1616 1024)) 200000 = 10724.
Proof. vm_compute. repeat split; easy. Qed.

(** C3, amended: with a non-positive configured [workUnits] and at most
    16800000 pixel samples on a well-formed scene, [render] derives
    [workUnits] as the ceiling of the number of pixel samples over 200000
    and [nMutations] as the integer quotient of that number by
    [workUnits]. *)
Theorem workUnits_derived (scene : Scene) (w : World) :
  workUnits (m_config (self w)) <= 0 ->
  wellFormed scene ->
  totalSamples scene <= 16800000 ->
  exists w',
    deriveBudget scene w = (Ok tt, w', []) /\
    workUnits (m_config (self w')) = ceil_div (totalSamples scene) 200000 /\
    nMutations (m_config (self w')) =
      totalSamples scene / workUnits (m_config (self w')).
Proof.
  intros H0 Hwf Hle. destruct (wellFormed_total scene Hwf) as [Ep Ht].
  pose proof (autoWorkUnits_exact (totalSamples scene) ltac:(lia)) as Hx.
  pose proof (autoWorkUnits_range (totalSamples scene) Ht) as Hr.
  assert (2 ^ 30 < 2 ^ 64) by reflexivity.
  rewrite deriveBudget_auto by exact H0. rewrite Ep. mred.
  rewrite size_wrap_small, size_div_pos by lia.
  eexists. split; [reflexivity|]. mred. rewrite Hx. split; reflexivity.
Qed.

Lemma workUnits_derived_witness :
  workUnits (m_config (self (initial noProperties))) <= 0 /\
  wellFormed (sceneOf 512 512 4) /\
  totalSamples (sceneOf 512 512 4) <= 16800000 /\
  exists w',
    deriveBudget (sceneOf 512 512 4) (initial noProperties) = (Ok tt, w', [])
    /\ workUnits (m_config (self w'))
       = ceil_div (totalSamples (sceneOf 512 512 4)) 200000
    /\ nMutations (m_config (self w')) =
         totalSamples (sceneOf 512 512 4) / workUnits (m_config (self w')).
Proof.
  assert (H0 : workUnits (m_config (self (initial noProperties))) <= 0)
    by (vm_compute; easy).
  assert (H1 : wellFormed (sceneOf 512 512 4)) by (vm_compute; easy).
  assert (H2 : totalSamples (sceneOf 512 512 4) <= 16800000)
    by (vm_compute; easy).
  split; [exact H0|]. split; [exact H1|]. split; [exact H2|].
  exact (workUnits_derived (sceneOf 512 512 4) (initial noProperties)
           H0 H1 H2).
Defined.

(** The bound of the amended C3 is the largest one: one pixel sample more
    and the conversion to single precision rounds 16800001 to 16800000. *)
Lemma workUnits_bound_is_tight :
  autoWorkUnits 16800001 = 84 /\ ceil_div 16800001 200000 = 85.
Proof. vm_compute. split; reflexivity. Qed.

(** C4: with eight cores and no configured number of work units, a
    512 x 512 crop at 4 samples per pixel is split into 6 work units,
    where four times the number of cores is 32. *)
Lemma workUnits_not_from_cores :
  workUnits (m_config (self (initial noProperties))) <= 0 /\
  coreCount sampleServices = 8 /\
  result_of (render sampleServices (sceneOf 512 512 4) 1 2 3
               (initial noProperties)) = Ok true /\
  workUnits (config_of (render sampleServices (sceneOf 512 512 4) 1 2 3
                          (initial noProperties))) = 6.
Proof. vm_compute. repeat split; easy. Qed.

End BudgetClaims.

(** * Preconditions and cancellation *)

Section Guards.

(** C7: [preprocess] raises a fatal error, having done nothing but log it,
    exactly when the scene has a subsurface integrator or the sampler is
    not the independent sampler; otherwise it returns [true]. *)
Theorem preprocess_guards (scene : Scene) (w : World) :
  ((subsurfaceIntegrators scene <> [] \/
    samplerClassName scene <> "IndependentSampler") <->
   exists msg, preprocess scene w = (Fault (FatalError msg), w, [EvLog EError msg]))
  /\
  (subsurfaceIntegrators scene = [] ->
   samplerClassName scene = "IndependentSampler" ->
   preprocess scene w = (Ok true, w, [])).
Proof.
  unfold preprocess, Integrator_preprocess.
  destruct (subsurfaceIntegrators scene) as [|i l] eqn:Es.
  - destruct (String.eqb_spec (samplerClassName scene) "IndependentSampler")
      as [En | En].
    + split; [|intros _ _; reflexivity]. split.
      * intros [H | H]; congruence.
      * intros [msg H]. discriminate H.
    + split; [|intros _ H; congruence]. split.
      * intros _. eexists. reflexivity.
      * intros _. right. exact En.
  - split; [|intros H; discriminate H]. split.
    + intros _. eexists. reflexivity.
    + intros _. left. discriminate.
Qed.

(** C9: [cancel] first cancels the nested job when there is one and then
    cancels the process on the scheduler; without a nested job it only
    does the latter.  In both cases it completes. *)
Theorem cancel_order (w : World) :
  cancel w =
  (Ok tt, w,
   match m_nestedJob (self w) with
   | Some j => [EvCancelJob j; EvSchedulerCancel (m_process (self w))]
   | None => [EvSchedulerCancel (m_process (self w))]
   end).
Proof.
  unfold cancel. mstep. destruct (m_nestedJob (self w)); reflexivity.
Qed.

End Guards.

(** * The two-stage controller and the seed generator *)

Section Stages.

Variable sv : Services.
Variable scene : Scene.
Variables sceneResID sensorResID samplerResID : Z.

Lemma sameTunables_fields c c' :
  sameTunables c c' ->
  importanceMap c' = importanceMap c /\
  twoStage c' = twoStage c /\ firstStage c' = firstStage c /\
  separateDirect c' = separateDirect c /\
  directSamples c' = directSamples c /\
  luminanceSamples c' = luminanceSamples c /\
  maxDepth c' = maxDepth c.
Proof.
  unfold sameTunables. intros H.
  pose proof (f_equal importanceMap H) as H1.
  pose proof (f_equal twoStage H) as H2.
  pose proof (f_equal firstStage H) as H3.
  pose proof (f_equal separateDirect H) as H4.
  pose proof (f_equal directSamples H) as H5.
  pose proof (f_equal luminanceSamples H) as H6.
  pose proof (f_equal maxDepth H) as H7.
  mred_in H1. mred_in H2. mred_in H3. mred_in H4. mred_in H5. mred_in H6.
  mred_in H7. repeat split; assumption.
Qed.

Lemma after_nil {A} (x : Result A * World * list event) : after [] x = x.
Proof. destruct x as [[r w] evs]. reflexivity. Qed.

(** [render] when the first stage, if it is due, passes its assertion and
    delivers an importance map. *)
Lemma render_past_first_stage w :
  let c := m_config (self w) in
  (firstStageDue c = true ->
   (assertionsEnabled sv = true -> 0 < firstStageSizeReduction c) /\
   nestedImage sv true (firstStageSizeReduction c) <> None) ->
  render sv scene sceneResID sensorResID samplerResID w =
  after
    (if firstStageDue c
     then [EvLog EInfo "Executing first MLT stage";
           EvLuminancePass true (firstStageSizeReduction c);
           EvLog EInfo "First MLT stage took %i ms"]
     else [])
    (renderMain sv scene sceneResID sensorResID samplerResID
       (mainEntry sv w)).
Proof.
  intros c H. rewrite render_eq. cbv zeta. unfold mainEntry. fold c.
  unfold firstStageDue in *.
  destruct (twoStage c && negb (firstStage c)).
  - destruct (H eq_refl) as [Ha Hn].
    assert (E : assertionsEnabled sv && negb (0 <? firstStageSizeReduction c)
                = false).
    { destruct (assertionsEnabled sv); [|reflexivity].
      specialize (Ha eq_refl). apply Z.ltb_lt in Ha. rewrite Ha. reflexivity. }
    rewrite E. destruct (nestedImage sv true _); [reflexivity | congruence].
  - rewrite after_nil. reflexivity.
Qed.

(** C5: with [twoStage] set and [firstStage] clear (and a positive
    reduction factor where assertions are checked), the first thing
    [render] does after announcing it is the nested luminance pass, with
    the configured reduction factor and the first-stage flag set; when
    that pass delivers no importance map, [render] logs a warning and
    returns [false], and nothing else happens: no seeds are generated and
    no process is scheduled. *)
Theorem first_stage_failure (w : World) :
  twoStage (m_config (self w)) = true ->
  firstStage (m_config (self w)) = false ->
  (assertionsEnabled sv = true ->
   0 < firstStageSizeReduction (m_config (self w))) ->
  (exists rest,
     events_of (render sv scene sceneResID sensorResID samplerResID w) =
     EvLog EInfo "Executing first MLT stage"
     :: EvLuminancePass true (firstStageSizeReduction (m_config (self w)))
     :: rest) /\
  (nestedImage sv true (firstStageSizeReduction (m_config (self w))) = None ->
   result_of (render sv scene sceneResID sensorResID samplerResID w)
     = Ok false /\
   events_of (render sv scene sceneResID sensorResID samplerResID w) =
     [EvLog EInfo "Executing first MLT stage";
      EvLuminancePass true (firstStageSizeReduction (m_config (self w)));
      EvLog EWarn "First-stage MLT process failed!"]).
Proof.
  intros Ht Hf Ha. rewrite render_eq. cbv zeta. rewrite Ht, Hf.
  cbn [andb negb].
  assert (E : assertionsEnabled sv
              && negb (0 <? firstStageSizeReduction (m_config (self w)))
              = false).
  { destruct (assertionsEnabled sv); [|reflexivity].
    specialize (Ha eq_refl). apply Z.ltb_lt in Ha. rewrite Ha. reflexivity. }
  rewrite E. destruct (nestedImage sv true _) as [bmp|].
  - split; [|intros H; discriminate H]. eexists. reflexivity.
  - split; [eexists; reflexivity|]. intros _. split; reflexivity.
Qed.

Lemma renderMain_importanceMap w :
  importanceMap
    (config_of (renderMain sv scene sceneResID sensorResID samplerResID w))
  = importanceMap (m_config (self w)).
Proof.
  rewrite renderMain_eq. cbv zeta.
  destruct (deriveBudget_frame scene w) as (r & w1 & E & Hr & _ & _ & _ & Hs).
  apply sameTunables_fields in Hs. destruct Hs as (Hi & _).
  rewrite E. destruct Hr as [-> | ->]; [|exact Hi].
  destruct (_ && _ && _).
  - destruct (directComponent sv _); [|exact Hi].
    unfold after, config_of, world_of. cbn [fst snd].
    match goal with
    | |- importanceMap (m_config (self (snd (fst ?x)))) = _ =>
        change (importanceMap (config_of x) = importanceMap (m_config (self w)))
    end.
    rewrite runChains_config. exact Hi.
  - unfold after, config_of, world_of. cbn [fst snd].
    match goal with
    | |- importanceMap (m_config (self (snd (fst ?x)))) = _ =>
        change (importanceMap (config_of x) = importanceMap (m_config (self w)))
    end.
    rewrite runChains_config. exact Hi.
Qed.

Lemma render_importanceMap w :
  importanceMap
    (config_of (render sv scene sceneResID sensorResID samplerResID w))
  = if firstStageDue (m_config (self w))
       && negb (assertionsEnabled sv
                && negb (0 <? firstStageSizeReduction (m_config (self w))))
    then nestedImage sv true (firstStageSizeReduction (m_config (self w)))
    else None.
Proof.
  rewrite render_eq. cbv zeta. unfold firstStageDue.
  destruct (twoStage (m_config (self w)) && negb (firstStage (m_config (self w)))).
  - destruct (assertionsEnabled sv && negb _); [reflexivity|].
    cbn [andb negb].
    destruct (nestedImage sv true _) as [bmp|] eqn:En; [|reflexivity].
    unfold after, config_of, world_of. cbn [fst snd].
    match goal with
    | |- importanceMap (m_config (self (snd (fst ?x)))) = _ =>
        change (importanceMap (config_of x) = Some bmp)
    end.
    rewrite renderMain_importanceMap. reflexivity.
  - rewrite renderMain_importanceMap. reflexivity.
Qed.

Lemma scheduled_importanceMap w p c img seeds :
  In (EvSchedule p c img seeds)
     (events_of (render sv scene sceneResID sensorResID samplerResID w)) ->
  importanceMap c =
    (if firstStageDue (m_config (self w))
     then nestedImage sv true (firstStageSizeReduction (m_config (self w)))
     else None).
Proof.
  intros H. apply render_schedule in H.
  destruct H as (w1 & E & _ & -> & _ & _ & _).
  destruct (deriveBudget_frame scene (mainEntry sv w))
    as (r & w1' & E' & _ & _ & _ & _ & Hs).
  rewrite E in E'. inversion E'. subst w1'.
  apply sameTunables_fields in Hs. destruct Hs as (Hi & _).
  unfold scheduledConfig. mred. rewrite Hi. unfold mainEntry.
  destruct (firstStageDue (m_config (self w))); reflexivity.
Qed.

(** C10: [render] starts by resetting the importance map, so it behaves
    the same whatever map the configuration held before; when it
    schedules the process the map is non-null only if [twoStage] is set,
    [firstStage] is clear and the nested pass of this invocation
    delivered it; a first-stage run schedules its process without a map;
    and the map [render] leaves behind is NULL or the one this
    invocation's nested pass returned. *)
Theorem importance_map_fresh (w : World) :
  (forall stale,
      render sv scene sceneResID sensorResID samplerResID
        (with_config (set_importanceMap stale (m_config (self w))) w)
      = render sv scene sceneResID sensorResID samplerResID
          (with_config (set_importanceMap None (m_config (self w))) w)) /\
  (forall p c img seeds m,
      In (EvSchedule p c img seeds)
         (events_of (render sv scene sceneResID sensorResID samplerResID w)) ->
      importanceMap c = Some m ->
      twoStage (m_config (self w)) = true /\
      firstStage (m_config (self w)) = false /\
      nestedImage sv true (firstStageSizeReduction (m_config (self w)))
        = Some m) /\
  (firstStage (m_config (self w)) = true ->
   forall p c img seeds,
     In (EvSchedule p c img seeds)
        (events_of (render sv scene sceneResID sensorResID samplerResID w)) ->
     importanceMap c = None) /\
  (importanceMap
     (config_of (render sv scene sceneResID sensorResID samplerResID w))
   = None \/
   twoStage (m_config (self w)) = true /\
   firstStage (m_config (self w)) = false /\
   importanceMap
     (config_of (render sv scene sceneResID sensorResID samplerResID w))
   = nestedImage sv true (firstStageSizeReduction (m_config (self w)))).
Proof.
  split; [|split; [|split]].
  - intros stale. unfold render. mstep. reflexivity.
  - intros p c img seeds m H Hm.
    rewrite (scheduled_importanceMap w p c img seeds H) in Hm.
    unfold firstStageDue in Hm.
    destruct (twoStage (m_config (self w)));
      destruct (firstStage (m_config (self w)));
      cbn [andb negb] in Hm; try discriminate Hm.
    repeat split. exact Hm.
  - intros Hf p c img seeds H.
    rewrite (scheduled_importanceMap w p c img seeds H).
    unfold firstStageDue. rewrite Hf.
    destruct (twoStage (m_config (self w))); reflexivity.
  - rewrite render_importanceMap. unfold firstStageDue.
    destruct (twoStage (m_config (self w)));
      destruct (firstStage (m_config (self w)));
      cbn [andb negb]; try (left; reflexivity).
    destruct (negb _); [right; repeat split | left; reflexivity].
Qed.

(** C2, amended: the luminance in the configuration of a scheduled
    process, which is also the one [render] leaves in [m_config], is the
    value returned by the second call of the seed generator (flag [true]),
    made with [luminanceSamples] samples on the sampler state the first
    call (flag [false]) left; the value of the first call is overwritten. *)
Theorem luminance_of_second_pass (w : World) p c img seeds :
  In (EvSchedule p c img seeds)
     (events_of (render sv scene sceneResID sensorResID samplerResID w)) ->
  luminance c =
    fst (fst (secondPass sv (rng w) (luminanceSamples c) (workUnits c))) /\
  luminance
    (config_of (render sv scene sceneResID sensorResID samplerResID w))
  = luminance c.
Proof.
  intros H. apply render_schedule in H.
  destruct H as (w1 & E & _ & -> & _ & Hc & _).
  destruct (deriveBudget_frame scene (mainEntry sv w))
    as (r & w1' & E' & _ & Hrng & _).
  rewrite E in E'. inversion E'. subst w1'.
  assert (Hr : rng w1 = rng w).
  { rewrite Hrng. unfold mainEntry.
    destruct (firstStageDue (m_config (self w))); reflexivity. }
  split; [|rewrite Hc; reflexivity].
  unfold scheduledConfig. mred. rewrite Hr. reflexivity.
Qed.

End Stages.

(** * The direct-illumination pass *)

Section Direct.

Variable sv : Services.
Variable scene : Scene.
Variables sceneResID sensorResID samplerResID : Z.

Lemma runChains_no_direct nested img w x y n :
  ~ In (EvRenderDirect x y n)
      (events_of (runChains sv nested sceneResID sensorResID samplerResID
                    img w)).
Proof.
  rewrite runChains_eq. mred. intros H. find_event H.
  apply in_app_or in H. destruct H as [H | H].
  - destruct nested; find_event H.
  - find_event H.
Qed.

Lemma runChains_setup nested img w :
  In (EvNewPathSampler (maxDepth (m_config (self w))) 10
        (separateDirect (m_config (self w))) true)
     (events_of (runChains sv nested sceneResID sensorResID samplerResID
                   img w)) /\
  In (EvNewProcess (newProcess sv) img)
     (events_of (runChains sv nested sceneResID sensorResID samplerResID
                   img w)).
Proof.
  rewrite runChains_eq. mred. split.
  - right. left. reflexivity.
  - right. right. left. reflexivity.
Qed.

(** [render] on a well-formed scene, past the first stage. *)
Lemma render_direct_cases w :
  let c := m_config (self w) in
  wellFormed scene -> is_int (workUnits c) ->
  (firstStageDue c = true ->
   (assertionsEnabled sv = true -> 0 < firstStageSizeReduction c) /\
   nestedImage sv true (firstStageSizeReduction c) <> None) ->
  exists prefix w1 start,
    (forall x y n, ~ In (EvRenderDirect x y n) prefix) /\
    maxDepth (m_config (self w1)) = maxDepth c /\
    separateDirect (m_config (self w1)) = separateDirect c /\
    render sv scene sceneResID sensorResID samplerResID w =
    after prefix
      (if directGuard c
       then
         match directComponent sv (directSamples c) with
         | None =>
             (Ok false, w1,
              [start; EvRenderDirect sceneResID sensorResID (directSamples c)])
         | Some img =>
             after
               [start; EvRenderDirect sceneResID sensorResID (directSamples c)]
               (runChains sv (twoStage c && firstStage c)
                  sceneResID sensorResID samplerResID (Some img) w1)
         end
       else
         after [start]
           (runChains sv (twoStage c && firstStage c)
              sceneResID sensorResID samplerResID None w1)) /\
    (forall x y n, start <> EvRenderDirect x y n).
Proof.
  intros c Hwf Hint Hfs.
  rewrite (render_past_first_stage sv scene _ _ _ w Hfs). fold c.
  set (w0 := mainEntry sv w).
  assert (Hc0 : sameTunables
                  (set_importanceMap (importanceMap (m_config (self w0))) c)
                  (m_config (self w0)) /\
                workUnits (m_config (self w0)) = workUnits c).
  { unfold w0, mainEntry. fold c. destruct (firstStageDue c); split; reflexivity. }
  destruct Hc0 as [Hs0 Hw0].
  apply sameTunables_fields in Hs0.
  destruct Hs0 as (_ & Ht0 & Hf0 & Hsd0 & Hds0 & _ & Hmd0).
  mred_in Ht0. mred_in Hf0. mred_in Hsd0. mred_in Hds0. mred_in Hmd0.
  destruct (deriveBudget_wellFormed scene w0 Hwf ltac:(rewrite Hw0; exact Hint))
    as (w1 & E & _).
  destruct (deriveBudget_frame scene w0) as (r & w1' & E' & _ & _ & _ & _ & Hs1).
  rewrite E in E'. inversion E'. subst r w1'. clear E'.
  apply sameTunables_fields in Hs1.
  destruct Hs1 as (_ & Ht1 & Hf1 & Hsd1 & Hds1 & _ & Hmd1).
  rewrite renderMain_eq. cbv zeta. rewrite E.
  rewrite Hsd1, Hds1, Ht0, Hf0, Hsd0, Hds0.
  eexists _, w1, _. split; [|split; [|split; [|split]]].
  4: { unfold directGuard. reflexivity. }
  4: { intros x y n. discriminate. }
  - intros x y n H. destruct (firstStageDue c); find_event H.
  - congruence.
  - congruence.
Qed.

(** C6, amended: on a well-formed scene, and provided the first stage
    (when it is due) delivers an importance map, [render] renders the
    separate direct-illumination image exactly when direct separation is
    enabled, [directSamples] is strictly positive and the run is not the
    nested first stage; it asks for [directSamples] samples, and returns
    [false] when no image comes back.  With a negative [directSamples] at
    construction no direct image is rendered, the process is created
    without one, and the path sampler is not told to leave out direct
    illumination. *)
Theorem direct_pass (w : World) :
  wellFormed scene ->
  is_int (workUnits (m_config (self w))) ->
  (firstStageDue (m_config (self w)) = true ->
   (assertionsEnabled sv = true ->
    0 < firstStageSizeReduction (m_config (self w))) /\
   nestedImage sv true (firstStageSizeReduction (m_config (self w)))
   <> None) ->
  separateDirect (m_config (self w))
    = (0 <=? directSamples (m_config (self w))) ->
  ((exists x y n,
      In (EvRenderDirect x y n)
         (events_of (render sv scene sceneResID sensorResID samplerResID w)))
   <->
   0 <= directSamples (m_config (self w)) /\
   0 < directSamples (m_config (self w)) /\
   twoStage (m_config (self w)) && firstStage (m_config (self w)) = false)
  /\
  (forall x y n,
      In (EvRenderDirect x y n)
         (events_of (render sv scene sceneResID sensorResID samplerResID w)) ->
      x = sceneResID /\ y = sensorResID /\
      n = directSamples (m_config (self w)))
  /\
  (0 < directSamples (m_config (self w)) ->
   twoStage (m_config (self w)) && firstStage (m_config (self w)) = false ->
   directComponent sv (directSamples (m_config (self w))) = None ->
   result_of (render sv scene sceneResID sensorResID samplerResID w)
   = Ok false)
  /\
  (directSamples (m_config (self w)) < 0 ->
   (forall x y n,
       ~ In (EvRenderDirect x y n)
           (events_of (render sv scene sceneResID sensorResID samplerResID w)))
   /\
   In (EvNewProcess (newProcess sv) None)
      (events_of (render sv scene sceneResID sensorResID samplerResID w))
   /\
   In (EvNewPathSampler (maxDepth (m_config (self w))) 10 false true)
      (events_of (render sv scene sceneResID sensorResID samplerResID w))).
Proof.
  intros Hwf Hint Hfs Hsep.
  destruct (render_direct_cases w Hwf Hint Hfs)
    as (prefix & w1 & start & Hpre & Hmd & Hsd & -> & Hstart).
  set (c := m_config (self w)) in *.
  assert (Hguard : directGuard c = true <->
                   0 <= directSamples c /\ 0 < directSamples c /\
                   twoStage c && firstStage c = false).
  { unfold directGuard. rewrite Hsep.
    destruct (Z.leb_spec 0 (directSamples c));
      destruct (Z.ltb_spec 0 (directSamples c));
      destruct (twoStage c && firstStage c); cbn [andb negb];
      intuition (try lia; try discriminate). }
  assert (Hin : forall x y n,
    In (EvRenderDirect x y n)
       (events_of
          (after prefix
             (if directGuard c
              then
                match directComponent sv (directSamples c) with
                | None =>
                    (Ok false, w1,
                     [start;
                      EvRenderDirect sceneResID sensorResID (directSamples c)])
                | Some img =>
                    after
                      [start;
                       EvRenderDirect sceneResID sensorResID (directSamples c)]
                      (runChains sv (twoStage c && firstStage c)
                         sceneResID sensorResID samplerResID (Some img) w1)
                end
              else
                after [start]
                  (runChains sv (twoStage c && firstStage c)
                     sceneResID sensorResID samplerResID None w1)))) ->
    directGuard c = true /\
    x = sceneResID /\ y = sensorResID /\ n = directSamples c).
  { intros x y n H. unfold after at 1 in H. unfold events_of at 1 in H.
    cbn [snd] in H. apply in_app_or in H.
    destruct H as [H | H]; [exfalso; exact (Hpre x y n H)|].
    destruct (directGuard c).
    - split; [reflexivity|].
      destruct (directComponent sv (directSamples c)).
      + mred_in H. destruct H as [H | [H | H]].
        * exfalso. exact (Hstart x y n H).
        * inversion H. repeat split.
        * exfalso. exact (runChains_no_direct _ _ _ x y n H).
      + mred_in H. destruct H as [H | [H | H]].
        * exfalso. exact (Hstart x y n H).
        * inversion H. repeat split.
        * contradiction.
    - exfalso. mred_in H. destruct H as [H | H].
      + exact (Hstart x y n H).
      + exact (runChains_no_direct _ _ _ x y n H). }
  split; [|split; [|split]].
  - split.
    + intros (x & y & n & H). apply Hguard. apply (Hin x y n H).
    + intros H. apply Hguard in H. rewrite H.
      exists sceneResID, sensorResID, (directSamples c).
      unfold after at 1. unfold events_of at 1. cbn [snd].
      apply in_or_app. right.
      destruct (directComponent sv (directSamples c)); mred;
        right; left; reflexivity.
  - intros x y n H. apply (Hin x y n H).
  - intros Hpos Hn Hd.
    assert (Hg : directGuard c = true)
      by (apply Hguard; repeat split; (lia || assumption)).
    rewrite Hg, Hd. reflexivity.
  - intros Hneg.
    assert (Hg : directGuard c = false).
    { apply Bool.not_true_is_false. intros Eg. apply Hguard in Eg. lia. }
    assert (Hs : separateDirect c = false).
    { rewrite Hsep. apply Z.leb_gt. exact Hneg. }
    split; [|split].
    + intros x y n H. apply Hin in H. destruct H as [H _]. congruence.
    + rewrite Hg. unfold after at 1. unfold events_of at 1. cbn [snd].
      apply in_or_app. right. mred. right.
      apply (runChains_setup (twoStage c && firstStage c) None w1).
    + rewrite Hg. unfold after at 1. unfold events_of at 1. cbn [snd].
      apply in_or_app. right. mred. right.
      rewrite <- Hmd, <- Hs, <- Hsd.
      apply (runChains_setup (twoStage c && firstStage c) None w1).
Qed.

End Direct.

(** * Concrete runs *)

Section Runs.

(** The single-precision model agrees with the IEEE 754 specification of
    the Standard Library on conversion and quotient, here on some
    thousand pixel-sample counts. *)
Lemma single_matches_ieee :
  ieee_agree_from 1000 1 1 = true /\
  ieee_agree_from 1000 16777000 1 = true /\
  ieee_agree_from 1000 16799500 1 = true /\
  ieee_agree_from 1000 1 7919777 = true /\
  ieee_agree_from 1000 2144600000 1 = true /\
  ieee_agree_from 1000 1 6148914691236517 = true.
Proof. vm_compute. repeat split; reflexivity. Qed.

Lemma first_stage_failure_witness :
  twoStage (m_config (self twoStageWorld)) = true /\
  firstStage (m_config (self twoStageWorld)) = false /\
  (assertionsEnabled failingFirstStage = true ->
   0 < firstStageSizeReduction (m_config (self twoStageWorld))) /\
  (exists rest,
     events_of (render failingFirstStage sampleScene 1 2 3 twoStageWorld) =
     EvLog EInfo "Executing first MLT stage"
     :: EvLuminancePass true
          (firstStageSizeReduction (m_config (self twoStageWorld)))
     :: rest) /\
  (nestedImage failingFirstStage true
     (firstStageSizeReduction (m_config (self twoStageWorld))) = None ->
   result_of (render failingFirstStage sampleScene 1 2 3 twoStageWorld)
     = Ok false /\
   events_of (render failingFirstStage sampleScene 1 2 3 twoStageWorld) =
     [EvLog EInfo "Executing first MLT stage";
      EvLuminancePass true
        (firstStageSizeReduction (m_config (self twoStageWorld)));
      EvLog EWarn "First-stage MLT process failed!"]).
Proof.
  assert (H1 : twoStage (m_config (self twoStageWorld)) = true)
    by (vm_compute; reflexivity).
  assert (H2 : firstStage (m_config (self twoStageWorld)) = false)
    by (vm_compute; reflexivity).
  assert (H3 : assertionsEnabled failingFirstStage = true ->
               0 < firstStageSizeReduction (m_config (self twoStageWorld)))
    by (intros _; vm_compute; reflexivity).
  split; [exact H1|]. split; [exact H2|]. split; [exact H3|].
  exact (first_stage_failure failingFirstStage sampleScene 1 2 3
           twoStageWorld H1 H2 H3).
Defined.

(** C2, as stated, fails: with a seed generator whose [k]-th call returns
    luminance [k], the process is scheduled with luminance 2, the value of
    the second call, where the first (flag [false]) returned 1. *)
Lemma luminance_not_of_first_pass :
  In (EvSchedule (ProcessRef 1)
        (config_of (render sampleServices sampleScene 1 2 3 sampleWorld))
        (Some (BitmapRef 2)) [PathSeedRef 1])
     (events_of (render sampleServices sampleScene 1 2 3 sampleWorld)) /\
  luminance (config_of (render sampleServices sampleScene 1 2 3 sampleWorld))
    <> fst (fst (firstPass sampleServices (rng sampleWorld)
                   (luminanceSamples
                      (config_of (render sampleServices sampleScene 1 2 3
                                    sampleWorld)))
                   (workUnits
                      (config_of (render sampleServices sampleScene 1 2 3
                                    sampleWorld))))) /\
  fst (fst (firstPass sampleServices (rng sampleWorld)
              (luminanceSamples
                 (config_of (render sampleServices sampleScene 1 2 3
                               sampleWorld)))
              (workUnits
                 (config_of (render sampleServices sampleScene 1 2 3
                               sampleWorld)))))
    = 1 # 1 /\
  luminance (config_of (render sampleServices sampleScene 1 2 3 sampleWorld))
    = 2 # 1.
Proof.
  vm_compute. split; [|split; [discriminate | split; reflexivity]].
  repeat (first [left; reflexivity | right]).
Qed.

Lemma luminance_of_second_pass_witness :
  In (EvSchedule (ProcessRef 1)
        (config_of (render sampleServices sampleScene 1 2 3 sampleWorld))
        (Some (BitmapRef 2)) [PathSeedRef 1])
     (events_of (render sampleServices sampleScene 1 2 3 sampleWorld)) /\
  luminance (config_of (render sampleServices sampleScene 1 2 3 sampleWorld))
    = fst (fst (secondPass sampleServices (rng sampleWorld)
                  (luminanceSamples
                     (config_of (render sampleServices sampleScene 1 2 3
                                   sampleWorld)))
                  (workUnits
                     (config_of (render sampleServices sampleScene 1 2 3
                                   sampleWorld))))) /\
  luminance (config_of (render sampleServices sampleScene 1 2 3 sampleWorld))
    = luminance
        (config_of (render sampleServices sampleScene 1 2 3 sampleWorld)).
Proof.
  assert (H : In (EvSchedule (ProcessRef 1)
                    (config_of (render sampleServices sampleScene 1 2 3
                                  sampleWorld))
                    (Some (BitmapRef 2)) [PathSeedRef 1])
                 (events_of (render sampleServices sampleScene 1 2 3
                               sampleWorld))).
  { vm_compute. repeat (first [left; reflexivity | right]). }
  split; [exact H|].
  exact (luminance_of_second_pass sampleServices sampleScene 1 2 3
           sampleWorld _ _ _ _ H).
Defined.

(** C6, as stated, fails: with [twoStage] set and a first stage that
    delivers no importance map, direct separation is enabled,
    [directSamples] is 16 and the run is not the nested first stage, yet
    [render] returns before the direct image is rendered. *)
Lemma direct_pass_not_reached :
  0 <= directSamples (m_config (self twoStageWorld)) /\
  separateDirect (m_config (self twoStageWorld)) = true /\
  0 < directSamples (m_config (self twoStageWorld)) /\
  twoStage (m_config (self twoStageWorld))
    && firstStage (m_config (self twoStageWorld)) = false /\
  result_of (render failingFirstStage sampleScene 1 2 3 twoStageWorld)
    = Ok false /\
  forall x y n,
    ~ In (EvRenderDirect x y n)
        (events_of (render failingFirstStage sampleScene 1 2 3 twoStageWorld)).
Proof.
  vm_compute. repeat split; try easy.
  intros x y n H. find_event H.
Qed.

Lemma direct_pass_witness :
  wellFormed sampleScene /\
  is_int (workUnits (m_config (self sampleWorld))) /\
  (firstStageDue (m_config (self sampleWorld)) = true ->
   (assertionsEnabled sampleServices = true ->
    0 < firstStageSizeReduction (m_config (self sampleWorld))) /\
   nestedImage sampleServices true
     (firstStageSizeReduction (m_config (self sampleWorld))) <> None) /\
  separateDirect (m_config (self sampleWorld))
    = (0 <=? directSamples (m_config (self sampleWorld))) /\
  ((exists x y n,
      In (EvRenderDirect x y n)
         (events_of (render sampleServices sampleScene 1 2 3 sampleWorld)))
   <->
   0 <= directSamples (m_config (self sampleWorld)) /\
   0 < directSamples (m_config (self sampleWorld)) /\
   twoStage (m_config (self sampleWorld))
     && firstStage (m_config (self sampleWorld)) = false).
Proof.
  assert (H1 : wellFormed sampleScene) by (vm_compute; easy).
  assert (H2 : is_int (workUnits (m_config (self sampleWorld))))
    by (vm_compute; easy).
  assert (H3 : firstStageDue (m_config (self sampleWorld)) = true ->
               (assertionsEnabled sampleServices = true ->
                0 < firstStageSizeReduction (m_config (self sampleWorld))) /\
               nestedImage sampleServices true
                 (firstStageSizeReduction (m_config (self sampleWorld)))
               <> None)
    by (vm_compute; easy).
  assert (H4 : separateDirect (m_config (self sampleWorld))
               = (0 <=? directSamples (m_config (self sampleWorld))))
    by (vm_compute; reflexivity).
  split; [exact H1|]. split; [exact H2|]. split; [exact H3|].
  split; [exact H4|].
  exact (proj1 (direct_pass sampleServices sampleScene 1 2 3 sampleWorld
                  H1 H2 H3 H4)).
Defined.

(** The constructor stores [directSamples] as it finds it. *)
Lemma directSamples_as_configured (props : Properties) :
  directSamples (m_config (MLT_new props))
    = getInteger props "directSamples" 16 /\
  separateDirect (m_config (MLT_new props))
    = (0 <=? directSamples (m_config (MLT_new props))).
Proof. split; reflexivity. Qed.

End Runs.

(** * More about the derived budget *)

Section BudgetBounds.

Lemma f32_of_size_error t :
  0 < t < 2 ^ 40 -> Z.abs (f32_of_size t - t) <= 32768.
Proof.
  intros [Hpos Hlt]. destruct (Z.lt_ge_cases t (2 ^ 24)) as [H | H].
  - rewrite f32_of_size_small by exact H. lia.
  - destruct (f32_of_size_large t H) as (He & -> & _).
    assert (Hl : Z.log2 t < 40) by (apply Z.log2_lt_pow2; lia).
    set (e := Z.log2 t - 23) in *.
    assert (Hp : 0 < 2 ^ e) by (apply Z.pow_pos_nonneg; lia).
    assert (Hp2 : 2 ^ e <= 2 ^ 16) by (apply Z.pow_le_mono_r; lia).
    change (2 ^ 16) with 65536 in Hp2.
    pose proof (rne_bounds t (2 ^ e) Hp). lia.
Qed.

Lemma f32_ceil_nonpos m e :
  e <= 0 -> f32_ceil (m, e) = ceil_div m (2 ^ (- e)).
Proof.
  intros He. destruct (Z.eq_dec e 0) as [-> | Hne].
  - unfold f32_ceil, ceil_div. cbn. rewrite Z.div_1_r. lia.
  - apply f32_ceil_neg. lia.
Qed.

Lemma autoWorkUnits_near (t : Z) :
  0 < t < 2 ^ 40 ->
  ceil_div t 200000 - 1 <= autoWorkUnits t <= ceil_div t 200000 + 1.
Proof.
  intros Ht.
  assert (Ht46 : 0 < t < 2 ^ 46).
  { assert (2 ^ 40 < 2 ^ 46) by reflexivity. lia. }
  pose proof (f32_of_size_pos t ltac:(lia)) as HF.
  pose proof (f32_of_size_log2 t 40 ltac:(lia) Ht) as HF2.
  pose proof (f32_of_size_error t Ht) as Herr.
  unfold autoWorkUnits.
  set (F := f32_of_size t) in *.
  destruct (f32_div_200000_bounds F HF) as [Hm He].
  assert (Hl : Z.log2 F <= 40).
  { change 40 with (Z.log2 (2 ^ 40)). apply Z.log2_le_mono. exact HF2. }
  pose proof (f32_div_scaled F 200000 ltac:(lia)) as Hs.
  destruct (f32_div F 200000) as [m e]. cbn [fst snd] in *.
  assert (He0 : e <= 0) by lia.
  pose proof (f32_ceil_bounds m e Hm ltac:(lia)) as Hc.
  assert (2 ^ 30 < 2 ^ 31) by reflexivity.
  rewrite wrap_small by lia.
  rewrite f32_ceil_nonpos by exact He0.
  unfold f32_scaled in Hs.
  rewrite (Z.max_l 0 e), (Z.max_r 0 (- e)) in Hs by lia.
  change (2 ^ 0) with 1 in Hs. rewrite Z.mul_1_r in Hs.
  assert (HP : 0 < 2 ^ (- e)) by (apply Z.pow_pos_nonneg; lia).
  set (P := 2 ^ (- e)) in *.
  pose proof (ceil_div_spec t 200000 ltac:(lia)) as Hk.
  set (k := ceil_div t 200000) in *.
  pose proof (ceil_div_spec m P HP) as Hcm.
  set (c := ceil_div m P) in *.
  pose proof (rne_bounds (F * P) 200000 ltac:(lia)) as Hb.
  rewrite <- Hs in Hb.
  assert (Hup : m <= (k + 1) * P).
  { rewrite Hs. apply rne_le; [lia|]. nia. }
  split; nia.
Qed.

(** X1: the derived number of work units is within one of the exact ceiling
    for every number of pixel samples below 2^40. *)
Theorem autoWorkUnits_within_one (t : Z) :
  0 < t < 2 ^ 40 ->
  ceil_div t 200000 - 1 <= autoWorkUnits t <= ceil_div t 200000 + 1.
Proof. exact (autoWorkUnits_near t). Qed.

Lemma autoWorkUnits_within_one_witness :
  0 < 2144600064 < 2 ^ 40 /\
  ceil_div 2144600064 200000 - 1 <= autoWorkUnits 2144600064
    <= ceil_div 2144600064 200000 + 1.
Proof.
  assert (H : 0 < 2144600064 < 2 ^ 40) by (vm_compute; easy).
  split; [exact H|]. exact (autoWorkUnits_within_one 2144600064 H).
Defined.

End BudgetBounds.

Section BudgetEdges.

(** Both deviations occur: 1296 x 1616 x 1024 pixel samples give one work
    unit less than the exact ceiling, 200000 * 5371 give one more. *)
Lemma autoWorkUnits_deviations :
  autoWorkUnits 2144600064 = ceil_div 2144600064 200000 - 1 /\
  autoWorkUnits 1074200000 = ceil_div 1074200000 200000 + 1.
Proof. vm_compute. split; reflexivity. Qed.

Lemma configured_workUnits_kept_aux (scene : Scene) (w : World) :
  is_int (workUnits (m_config (self w))) ->
  0 < workUnits (m_config (self w)) ->
  deriveBudget scene w =
  (Ok tt,
   with_config
     (set_nMutations
        (pixelSamples scene / workUnits (m_config (self w)))
        (m_config (self w))) w,
   []).
Proof.
  intros Hint Hpos. unfold is_int in Hint.
  assert (2 ^ 31 < 2 ^ 64) by reflexivity.
  rewrite deriveBudget_given by exact Hpos. cbv zeta.
  rewrite size_wrap_small, size_div_pos by lia. reflexivity.
Qed.

(** X3: a positive configured [workUnits] is kept, and the derivation
    completes on every scene, whatever its crop and sample count:
    [nMutations] becomes the quotient of the computed number of pixel
    samples by it. *)
Theorem configured_workUnits_kept (scene : Scene) (w : World) :
  is_int (workUnits (m_config (self w))) ->
  0 < workUnits (m_config (self w)) ->
  deriveBudget scene w =
  (Ok tt,
   with_config
     (set_nMutations
        (pixelSamples scene / workUnits (m_config (self w)))
        (m_config (self w))) w,
   []).
Proof. exact (configured_workUnits_kept_aux scene w). Qed.

Lemma configured_workUnits_kept_witness :
  is_int (workUnits (m_config (self (initial (withInteger "workUnits" 4
                                                noProperties))))) /\
  0 < workUnits (m_config (self (initial (withInteger "workUnits" 4
                                            noProperties)))) /\
  deriveBudget (sceneOf 0 0 0)
    (initial (withInteger "workUnits" 4 noProperties)) =
  (Ok tt,
   with_config
     (set_nMutations
        (pixelSamples (sceneOf 0 0 0)
         / workUnits (m_config (self (initial (withInteger "workUnits" 4
                                                 noProperties)))))
        (m_config (self (initial (withInteger "workUnits" 4
                                    noProperties)))))
     (initial (withInteger "workUnits" 4 noProperties)),
   []).
Proof.
  assert (H1 : is_int (workUnits (m_config (self (initial
                 (withInteger "workUnits" 4 noProperties))))))
    by (vm_compute; easy).
  assert (H2 : 0 < workUnits (m_config (self (initial
                 (withInteger "workUnits" 4 noProperties)))))
    by (vm_compute; reflexivity).
  split; [exact H1|]. split; [exact H2|].
  exact (configured_workUnits_kept (sceneOf 0 0 0)
           (initial (withInteger "workUnits" 4 noProperties)) H1 H2).
Defined.

(** X4: on a scene whose counts do not wrap, the derivation divides by zero
    exactly when there is no pixel sample at all and no positive number
    of work units was configured. *)
Theorem division_by_zero_iff (scene : Scene) (w : World) :
  0 <= fst (cropSize scene) -> 0 <= snd (cropSize scene) ->
  fst (cropSize scene) * snd (cropSize scene) < 2 ^ 31 ->
  0 <= sampleCount scene ->
  totalSamples scene < 2 ^ 46 ->
  is_int (workUnits (m_config (self w))) ->
  (result_of (deriveBudget scene w) = Fault DivisionByZero <->
   totalSamples scene = 0 /\ workUnits (m_config (self w)) <= 0) /\
  (result_of (deriveBudget scene w) <> Fault DivisionByZero ->
   result_of (deriveBudget scene w) = Ok tt).
Proof.
  intros Hx Hy Hxy Hs Ht Hint.
  assert (2 ^ 46 < 2 ^ 64) by reflexivity.
  assert (Ep : pixelSamples scene = totalSamples scene).
  { apply pixelSamples_exact; try assumption. unfold totalSamples in Ht. lia. }
  assert (H0 : 0 <= totalSamples scene) by (unfold totalSamples; nia).
  destruct (Z.le_gt_cases (workUnits (m_config (self w))) 0) as [Hw | Hw].
  - rewrite deriveBudget_auto by exact Hw. cbv zeta. rewrite Ep. mred.
    destruct (Z.eq_dec (totalSamples scene) 0) as [E0 | Hne].
    + rewrite E0. change (autoWorkUnits 0) with 0.
      change (size_div 0 (size_wrap 0)) with (@None Z). mred.
      split; [split; intros; [split; [reflexivity | exact Hw] | reflexivity]|].
      intros Hc. exfalso. apply Hc. reflexivity.
    + pose proof (autoWorkUnits_range (totalSamples scene) ltac:(lia)) as Hr.
      assert (2 ^ 30 < 2 ^ 64) by reflexivity.
      rewrite size_wrap_small, size_div_pos by lia. mred.
      split; [|intros _; reflexivity].
      split; [intros Hc; discriminate Hc | intros [Hc _]; contradiction].
  - rewrite (configured_workUnits_kept_aux scene w Hint Hw). mred.
    split; [|intros _; reflexivity].
    split; [intros Hc; discriminate Hc | intros [_ Hc]; lia].
Qed.

End BudgetEdges.

Section UnitBudget.

(** X2: with the number of work units derived, a work unit never gets more
    than 400000 mutations and, once there are 200000 pixel samples, never
    fewer than 66666; up to 16800000 pixel samples it gets at most 200000
    and, from 200000 pixel samples on, at least 100000. *)
Theorem unit_budget_bounds (scene : Scene) (w : World) :
  workUnits (m_config (self w)) <= 0 ->
  wellFormed scene ->
  totalSamples scene < 2 ^ 40 ->
  exists w',
    deriveBudget scene w = (Ok tt, w', []) /\
    nMutations (m_config (self w')) <= 400000 /\
    (200000 <= totalSamples scene ->
     66666 <= nMutations (m_config (self w'))) /\
    (totalSamples scene <= 16800000 ->
     nMutations (m_config (self w')) <= 200000 /\
     (200000 <= totalSamples scene ->
      100000 <= nMutations (m_config (self w')))).
Proof.
  intros H0 Hwf H40. destruct (wellFormed_total scene Hwf) as [Ep Ht].
  pose proof (autoWorkUnits_range (totalSamples scene) Ht) as Hr.
  pose proof (autoWorkUnits_near (totalSamples scene) ltac:(lia)) as Hn.
  pose proof (ceil_div_spec (totalSamples scene) 200000 ltac:(lia)) as Hk.
  assert (2 ^ 30 < 2 ^ 64) by reflexivity.
  rewrite deriveBudget_auto by exact H0. rewrite Ep. mred.
  rewrite size_wrap_small, size_div_pos by lia.
  eexists. split; [reflexivity|]. mred.
  set (t := totalSamples scene) in *.
  set (u := autoWorkUnits t) in *.
  set (k := ceil_div t 200000) in *.
  split; [|split].
  - apply Z.div_le_upper_bound; [lia|]. nia.
  - intros Hb. apply Z.div_le_lower_bound; [lia|]. nia.
  - intros Hs. pose proof (autoWorkUnits_exact t ltac:(lia)) as Hx.
    fold u k in Hx. split.
    + apply Z.div_le_upper_bound; [lia|]. nia.
    + intros Hb. apply Z.div_le_lower_bound; [lia|]. nia.
Qed.

Lemma unit_budget_bounds_witness :
  workUnits (m_config (self sampleWorld)) <= 0 /\
  wellFormed sampleScene /\
  totalSamples sampleScene < 2 ^ 40 /\
  exists w',
    deriveBudget sampleScene sampleWorld = (Ok tt, w', []) /\
    nMutations (m_config (self w')) <= 400000 /\
    (200000 <= totalSamples sampleScene ->
     66666 <= nMutations (m_config (self w'))) /\
    (totalSamples sampleScene <= 16800000 ->
     nMutations (m_config (self w')) <= 200000 /\
     (200000 <= totalSamples sampleScene ->
      100000 <= nMutations (m_config (self w')))).
Proof.
  assert (H1 : workUnits (m_config (self sampleWorld)) <= 0)
    by (vm_compute; easy).
  assert (H2 : wellFormed sampleScene) by (vm_compute; easy).
  assert (H3 : totalSamples sampleScene < 2 ^ 40) by (vm_compute; easy).
  split; [exact H1|]. split; [exact H2|]. split; [exact H3|].
  exact (unit_budget_bounds sampleScene sampleWorld H1 H2 H3).
Defined.

Lemma division_by_zero_iff_witness :
  0 <= fst (cropSize (sceneOf 512 512 0)) /\
  0 <= snd (cropSize (sceneOf 512 512 0)) /\
  fst (cropSize (sceneOf 512 512 0)) * snd (cropSize (sceneOf 512 512 0))
    < 2 ^ 31 /\
  0 <= sampleCount (sceneOf 512 512 0) /\
  totalSamples (sceneOf 512 512 0) < 2 ^ 46 /\
  is_int (workUnits (m_config (self sampleWorld))) /\
  (result_of (deriveBudget (sceneOf 512 512 0) sampleWorld)
     = Fault DivisionByZero <->
   totalSamples (sceneOf 512 512 0) = 0 /\
   workUnits (m_config (self sampleWorld)) <= 0).
Proof.
  assert (H1 : 0 <= fst (cropSize (sceneOf 512 512 0))) by (vm_compute; easy).
  assert (H2 : 0 <= snd (cropSize (sceneOf 512 512 0))) by (vm_compute; easy).
  assert (H3 : fst (cropSize (sceneOf 512 512 0))
               * snd (cropSize (sceneOf 512 512 0)) < 2 ^ 31)
    by (vm_compute; easy).
  assert (H4 : 0 <= sampleCount (sceneOf 512 512 0)) by (vm_compute; easy).
  assert (H5 : totalSamples (sceneOf 512 512 0) < 2 ^ 46)
    by (vm_compute; easy).
  assert (H6 : is_int (workUnits (m_config (self sampleWorld))))
    by (vm_compute; easy).
  repeat (split; [assumption|]).
  exact (proj1 (division_by_zero_iff (sceneOf 512 512 0) sampleWorld
                  H1 H2 H3 H4 H5 H6)).
Defined.

End UnitBudget.

(** * The shape of a run *)

Ltac xred :=
  cbn beta iota zeta delta
    [fst snd app self rng m_config m_process m_nestedJob
     maxDepth twoStage firstStageSizeReduction firstStage luminanceSamples
     directSamples separateDirect workUnits bidirectionalMutation
     lensPerturbation causticPerturbation multiChainPerturbation
     manifoldPerturbation probFactor timeout nMutations luminance
     importanceMap set_workUnits set_nMutations set_luminance
     set_importanceMap clear with_config
     result_of world_of events_of config_of after
     andb negb omap list_omap scheduled seedRequests luminancePasses
     directRequests registered unregistered dumps pathSamplers length
     lastEvents drop Nat.sub scheduledConfig scheduledSeeds].

(** Splits a goal about [render sv scene a b c w] into the runs there are:
    the failed assertion, the failed first stage, and, behind either entry
    into [renderMain], the division by zero, the failed direct pass and the
    chains with and without a direct image. *)
Ltac main_cases sv scene W Ets Efs :=
  rewrite ?renderMain_eq; cbv zeta; xred; rewrite ?Ets, ?Efs; xred;
  let r := fresh "r" in
  let w1 := fresh "w1" in
  let E := fresh "Eb" in
  let Hr := fresh "Hr" in
  let Hrng := fresh "Hrng" in
  let Hp := fresh "Hproc" in
  let Hj := fresh "Hjob" in
  let Hs := fresh "Hsame" in
  destruct (deriveBudget_frame scene W) as (r & w1 & E & Hr & Hrng & Hp & Hj & Hs);
  xred; mred_in E; rewrite ?E; mred_in Hrng; mred_in Hp; mred_in Hj;
  destruct Hr as [-> | ->]; xred;
  [ let Eg := fresh "Eg" in
    let Ed := fresh "Ed" in
    destruct (separateDirect (m_config (self w1))
              && (0 <? directSamples (m_config (self w1)))) eqn:Eg;
    xred;
    [ try (destruct (directComponent sv (directSamples (m_config (self w1))))
             eqn:Ed; xred);
      rewrite ?runChains_eq; xred
    | rewrite ?runChains_eq; xred ]
  | ].

Ltac render_cases sv scene w :=
  let Ets := fresh "Ets" in
  let Efs := fresh "Efs" in
  let Ea := fresh "Ea" in
  let En := fresh "En" in
  rewrite ?render_eq; cbv zeta;
  destruct (twoStage (m_config (self w))) eqn:Ets;
  destruct (firstStage (m_config (self w))) eqn:Efs; xred;
  [ main_cases sv scene (with_config (set_importanceMap None (m_config (self w))) w) Ets Efs
  | destruct (assertionsEnabled sv
              && negb (0 <? firstStageSizeReduction (m_config (self w)))) eqn:Ea;
    xred;
    [ | destruct (nestedImage sv true (firstStageSizeReduction (m_config (self w))))
          eqn:En; xred;
        [ match goal with
          | |- context [renderMain _ _ _ _ _ ?W] => main_cases sv scene W Ets Efs
          end
        | ] ]
  | main_cases sv scene (with_config (set_importanceMap None (m_config (self w))) w) Ets Efs
  | main_cases sv scene (with_config (set_importanceMap None (m_config (self w))) w) Ets Efs ].

Section Shape.

Variable sv : Services.
Variable scene : Scene.
Variables sceneResID sensorResID samplerResID : Z.

(** X5: [render] schedules at most one process; it reports success only if
    it scheduled one, and then reports what the process reported, leaving
    in [m_config] the configuration the process ran on. *)
Theorem render_result (w : World) :
  match
    scheduled
      (events_of (render sv scene sceneResID sensorResID samplerResID w))
  with
  | [] =>
      result_of (render sv scene sceneResID sensorResID samplerResID w)
      <> Ok true
  | [(p, c, img, seeds)] =>
      p = newProcess sv /\
      config_of (render sv scene sceneResID sensorResID samplerResID w) = c /\
      result_of (render sv scene sceneResID sensorResID samplerResID w)
      = Ok (processSucceeds sv c img seeds)
  | _ => False
  end.
Proof.
  render_cases sv scene w; try discriminate; repeat split; reflexivity.
Qed.

(** X6: the replayable sampler is registered exactly when a process is
    scheduled and is released again: a run that schedules a process ends
    with registering the sampler, binding the four resources, scheduling
    the process, waiting for it, developing the film and releasing the
    sampler, in this order; any other run registers nothing. *)
Theorem resources_released (w : World) :
  registered
    (events_of (render sv scene sceneResID sensorResID samplerResID w))
  = unregistered
      (events_of (render sv scene sceneResID sensorResID samplerResID w)) /\
  match
    scheduled
      (events_of (render sv scene sceneResID sensorResID samplerResID w))
  with
  | [] =>
      registered
        (events_of (render sv scene sceneResID sensorResID samplerResID w))
      = []
  | (p, c, img, seeds) :: _ =>
      registered
        (events_of (render sv scene sceneResID sensorResID samplerResID w))
      = [rplSamplerResID sv] /\
      lastEvents 9
        (events_of (render sv scene sceneResID sensorResID samplerResID w))
      = [EvRegisterResource (rplSamplerResID sv);
         EvBindResource "scene" sceneResID;
         EvBindResource "sensor" sensorResID;
         EvBindResource "sampler" samplerResID;
         EvBindResource "rplSampler" (rplSamplerResID sv);
         EvSchedule p c img seeds;
         EvWait p;
         EvDevelop p;
         EvUnregisterResource (rplSamplerResID sv)]
  end.
Proof.
  render_cases sv scene w; repeat split; reflexivity.
Qed.

(** X7: a run that schedules a process calls the seed generator exactly
    twice, first with flag [false], then with flag [true], both times for
    [luminanceSamples] samples and as many seeds as there are work units;
    the process gets the seeds of the second call only, and the sampler is
    left where the second call left it.  Any other run generates no
    seeds. *)
Theorem seeds_of_second_pass (w : World) :
  match
    scheduled
      (events_of (render sv scene sceneResID sensorResID samplerResID w))
  with
  | [] =>
      seedRequests
        (events_of (render sv scene sceneResID sensorResID samplerResID w))
      = []
  | (p, c, img, seeds) :: _ =>
      seedRequests
        (events_of (render sv scene sceneResID sensorResID samplerResID w))
      = [(luminanceSamples c, workUnits c, false);
         (luminanceSamples c, workUnits c, true)] /\
      seeds =
        snd (fst (secondPass sv (rng w) (luminanceSamples c) (workUnits c)))
      /\
      rng (world_of (render sv scene sceneResID sensorResID samplerResID w))
      = snd (secondPass sv (rng w) (luminanceSamples c) (workUnits c))
  end.
Proof.
  render_cases sv scene w; try reflexivity;
    unfold scheduledSeeds, scheduledConfig; xred; rewrite ?Hrng;
    repeat split; reflexivity.
Qed.

End Shape.

(** * What a run does and does not do *)

Section Settings.

Lemma sameTunables_all c c' :
  sameTunables c c' ->
  maxDepth c' = maxDepth c /\
  twoStage c' = twoStage c /\
  firstStageSizeReduction c' = firstStageSizeReduction c /\
  firstStage c' = firstStage c /\
  luminanceSamples c' = luminanceSamples c /\
  directSamples c' = directSamples c /\
  separateDirect c' = separateDirect c /\
  bidirectionalMutation c' = bidirectionalMutation c /\
  lensPerturbation c' = lensPerturbation c /\
  causticPerturbation c' = causticPerturbation c /\
  multiChainPerturbation c' = multiChainPerturbation c /\
  manifoldPerturbation c' = manifoldPerturbation c /\
  probFactor c' = probFactor c /\
  timeout c' = timeout c.
Proof.
  unfold sameTunables. intros H.
  repeat split;
    [ apply (f_equal maxDepth) in H
    | apply (f_equal twoStage) in H
    | apply (f_equal firstStageSizeReduction) in H
    | apply (f_equal firstStage) in H
    | apply (f_equal luminanceSamples) in H
    | apply (f_equal directSamples) in H
    | apply (f_equal separateDirect) in H
    | apply (f_equal bidirectionalMutation) in H
    | apply (f_equal lensPerturbation) in H
    | apply (f_equal causticPerturbation) in H
    | apply (f_equal multiChainPerturbation) in H
    | apply (f_equal manifoldPerturbation) in H
    | apply (f_equal probFactor) in H
    | apply (f_equal timeout) in H ];
    exact H.
Qed.

Lemma deriveBudget_keeps scene w r w' evs :
  deriveBudget scene w = (r, w', evs) ->
  0 < workUnits (m_config (self w)) ->
  workUnits (m_config (self w')) = workUnits (m_config (self w)).
Proof.
  intros E Hpos. rewrite deriveBudget_given in E by exact Hpos.
  cbv zeta in E. destruct (size_div _ _); inversion E; reflexivity.
Qed.

Lemma cancel_events w :
  world_of (cancel w) = w /\
  last (events_of (cancel w)) = Some (EvSchedulerCancel (m_process (self w))).
Proof.
  unfold cancel. mstep. destruct (m_nestedJob (self w)); split; reflexivity.
Qed.

End Settings.

Ltac transfer :=
  match goal with
  | H : sameTunables _ _ |- _ =>
      apply sameTunables_all in H; mred_in H;
      let H1 := fresh "Hmd" in
      let H2 := fresh "Hts" in
      let H3 := fresh "Hfr" in
      let H4 := fresh "Hfs" in
      let H5 := fresh "Hls" in
      let H6 := fresh "Hds" in
      let H7 := fresh "Hsd" in
      let H8 := fresh "Hbm" in
      let H9 := fresh "Hlp" in
      let H10 := fresh "Hcp" in
      let H11 := fresh "Hmc" in
      let H12 := fresh "Hmp" in
      let H13 := fresh "Hpf" in
      let H14 := fresh "Hto" in
      destruct H as (H1 & H2 & H3 & H4 & H5 & H6 & H7 & H8 & H9 & H10
                     & H11 & H12 & H13 & H14)
  end.

Section Conduct.

Variable sv : Services.
Variable scene : Scene.
Variables sceneResID sensorResID samplerResID : Z.

(** X8: [render] writes nothing but the four derived fields: every tunable of
    the configuration is afterwards what it was before, however the run
    ends, and so is a positive [workUnits]. *)
Theorem tunables_preserved (w : World) :
  let c := m_config (self w) in
  let c' :=
    config_of (render sv scene sceneResID sensorResID samplerResID w) in
  maxDepth c' = maxDepth c /\
  twoStage c' = twoStage c /\
  firstStageSizeReduction c' = firstStageSizeReduction c /\
  firstStage c' = firstStage c /\
  luminanceSamples c' = luminanceSamples c /\
  directSamples c' = directSamples c /\
  separateDirect c' = separateDirect c /\
  bidirectionalMutation c' = bidirectionalMutation c /\
  lensPerturbation c' = lensPerturbation c /\
  causticPerturbation c' = causticPerturbation c /\
  multiChainPerturbation c' = multiChainPerturbation c /\
  manifoldPerturbation c' = manifoldPerturbation c /\
  probFactor c' = probFactor c /\
  timeout c' = timeout c /\
  (0 < workUnits c -> workUnits c' = workUnits c).
Proof.
  cbv zeta.
  render_cases sv scene w;
    try (pose proof (deriveBudget_keeps _ _ _ _ _ Eb) as Hkeep;
         mred_in Hkeep);
    try transfer; unfold scheduledConfig; xred;
    repeat split; unfold config_of, world_of, after; xred;
    try congruence; try assumption.
Qed.

(** X9: the statistics are dumped once by every run that schedules a
    process and is not the nested first stage, and by no other run. *)
Theorem statistics_dumped (w : World) :
  dumps (events_of (render sv scene sceneResID sensorResID samplerResID w))
  = if twoStage (m_config (self w)) && firstStage (m_config (self w))
    then 0%nat
    else length
           (scheduled
              (events_of
                 (render sv scene sceneResID sensorResID samplerResID w))).
Proof. render_cases sv scene w; reflexivity. Qed.

(** X10: a nested first-stage run runs no luminance pass of its own, renders
    no direct image and dumps no statistics. *)
Theorem nested_run_quiet (w : World) :
  twoStage (m_config (self w)) = true ->
  firstStage (m_config (self w)) = true ->
  luminancePasses
    (events_of (render sv scene sceneResID sensorResID samplerResID w)) = []
  /\
  directRequests
    (events_of (render sv scene sceneResID sensorResID samplerResID w)) = []
  /\
  dumps (events_of (render sv scene sceneResID sensorResID samplerResID w))
  = 0%nat.
Proof.
  intros Ht Hf. render_cases sv scene w; try congruence;
    repeat split; reflexivity.
Qed.

(** X11: the luminance pass is run at most once: exactly when the first stage
    is due and the assertion on the reduction factor does not fail, and
    then with the configured reduction factor. *)
Theorem luminance_pass_once (w : World) :
  luminancePasses
    (events_of (render sv scene sceneResID sensorResID samplerResID w))
  = if firstStageDue (m_config (self w))
       && negb (assertionsEnabled sv
                && negb (0 <? firstStageSizeReduction (m_config (self w))))
    then [firstStageSizeReduction (m_config (self w))]
    else [].
Proof.
  unfold firstStageDue.
  render_cases sv scene w; rewrite ?Ea; reflexivity.
Qed.

(** X12: the process is scheduled with the image the direct pass returned when
    the guard of the direct pass holds, and without a direct image when it
    does not; the direct pass is asked for [directSamples] samples, once,
    in the first case and not at all in the second. *)
Theorem direct_image_handed_over (w : World) :
  match
    scheduled
      (events_of (render sv scene sceneResID sensorResID samplerResID w))
  with
  | [] => True
  | (p, c, img, seeds) :: _ =>
      img = (if directGuard (m_config (self w))
             then directComponent sv (directSamples (m_config (self w)))
             else None) /\
      (directGuard (m_config (self w)) = true -> img <> None) /\
      directRequests
        (events_of (render sv scene sceneResID sensorResID samplerResID w))
      = (if directGuard (m_config (self w))
         then [directSamples (m_config (self w))]
         else [])
  end.
Proof.
  unfold directGuard.
  render_cases sv scene w; try exact I;
    transfer; rewrite ?Hsd, ?Hds in *; rewrite ?Eg; xred; rewrite ?Ed;
    repeat split; try reflexivity; try discriminate.
Qed.

(** X13: one path sampler is created per scheduled process, none otherwise;
    it gets the configured [maxDepth], Russian roulette from depth 10,
    leaves out direct illumination exactly when [separateDirect] is set,
    and samples direct illumination. *)
Theorem path_sampler_settings (w : World) :
  pathSamplers
    (events_of (render sv scene sceneResID sensorResID samplerResID w))
  = match
      scheduled
        (events_of (render sv scene sceneResID sensorResID samplerResID w))
    with
    | [] => []
    | _ :: _ =>
        [(maxDepth (m_config (self w)), 10,
          separateDirect (m_config (self w)), true)]
    end.
Proof.
  render_cases sv scene w; try reflexivity;
    transfer; rewrite ?Hsd, ?Hmd; reflexivity.
Qed.

(** X14: with direct separation enabled but the guard of the direct pass
    false (a [directSamples] of zero, or the nested first stage), direct
    illumination is hidden: no direct image is rendered, the process is
    scheduled without one, and the path sampler still leaves direct
    illumination out. *)
Theorem direct_light_hidden (w : World) :
  separateDirect (m_config (self w)) = true ->
  directGuard (m_config (self w)) = false ->
  directRequests
    (events_of (render sv scene sceneResID sensorResID samplerResID w)) = []
  /\
  match
    scheduled
      (events_of (render sv scene sceneResID sensorResID samplerResID w))
  with
  | [] => True
  | (p, c, img, seeds) :: _ =>
      img = None /\
      pathSamplers
        (events_of (render sv scene sceneResID sensorResID samplerResID w))
      = [(maxDepth (m_config (self w)), 10, true, true)]
  end.
Proof.
  unfold directGuard. intros Hsep Hg.
  render_cases sv scene w; try (split; [reflexivity | exact I]);
    transfer; rewrite ?Hsd, ?Hds, ?Hmd in *;
    rewrite Hsep, ?Ets, ?Efs in Hg; rewrite Hsep in Eg;
    cbn [andb negb] in Hg, Eg; rewrite ?Eg in Hg; cbn [andb negb] in Hg;
    try discriminate; rewrite ?Hsep; repeat split; reflexivity.
Qed.

End Conduct.

(** * The process reference and repeated runs *)

Section Afterwards.

Variable sv : Services.
Variable scene : Scene.
Variables sceneResID sensorResID samplerResID : Z.

(** X16: after a run that scheduled a process, [m_process] is NULL again, and
    after any other run it is what it was: a later [cancel] ends by
    cancelling NULL or that earlier reference, never the finished
    process of this run. *)
Theorem process_reference_cleared (w : World) :
  m_process
    (self (world_of (render sv scene sceneResID sensorResID samplerResID w)))
  = match
      scheduled
        (events_of (render sv scene sceneResID sensorResID samplerResID w))
    with
    | [] => m_process (self w)
    | _ :: _ => None
    end
  /\
  last
    (events_of
       (cancel
          (world_of (render sv scene sceneResID sensorResID samplerResID w))))
  = Some
      (EvSchedulerCancel
         match
           scheduled
             (events_of
                (render sv scene sceneResID sensorResID samplerResID w))
         with
         | [] => m_process (self w)
         | _ :: _ => None
         end).
Proof.
  assert (H : m_process
                (self (world_of (render sv scene sceneResID sensorResID
                                   samplerResID w)))
              = match
                  scheduled
                    (events_of (render sv scene sceneResID sensorResID
                                  samplerResID w))
                with
                | [] => m_process (self w)
                | _ :: _ => None
                end).
  { render_cases sv scene w; unfold world_of, after; xred;
      rewrite ?Hproc; reflexivity. }
  split; [exact H|].
  rewrite (proj2 (cancel_events _)), H. reflexivity.
Qed.

End Afterwards.

Section Again.

(** X17: a derived number of work units sticks: when a run on a well-formed
    scene has scheduled its process, a later run of the same integrator,
    on whatever scene and with whatever collaborators, keeps that number
    of work units and divides its own number of pixel samples by it. *)
Theorem workUnits_stick (sv sv' : Services) (scene scene' : Scene)
    (a b c a' b' c' : Z) (w : World) p1 c1 i1 s1 p2 c2 i2 s2 :
  wellFormed scene ->
  is_int (workUnits (m_config (self w))) ->
  In (EvSchedule p1 c1 i1 s1) (events_of (render sv scene a b c w)) ->
  In (EvSchedule p2 c2 i2 s2)
     (events_of (render sv' scene' a' b' c'
                   (world_of (render sv scene a b c w)))) ->
  workUnits c2 = workUnits c1 /\
  nMutations c2 = pixelSamples scene' / workUnits c1.
Proof.
  intros Hwf Hint H1 H2.
  apply render_schedule in H1.
  destruct H1 as (w1 & E1 & _ & -> & _ & Hc1 & _).
  assert (Hint0 : is_int (workUnits (m_config (self (mainEntry sv w))))).
  { unfold mainEntry. destruct (firstStageDue (m_config (self w))); exact Hint. }
  destruct (deriveBudget_wellFormed scene (mainEntry sv w) Hwf Hint0)
    as (w1' & E1' & Hu & _).
  rewrite E1 in E1'. inversion E1'. subst w1'. clear E1'.
  set (W := world_of (render sv scene a b c w)) in *.
  assert (HW : workUnits (m_config (self W)) = workUnits (m_config (self w1))).
  { unfold config_of in Hc1. fold W in Hc1. rewrite Hc1. reflexivity. }
  apply render_schedule in H2.
  destruct H2 as (w2 & E2 & _ & -> & _).
  assert (HE : workUnits (m_config (self (mainEntry sv' W)))
               = workUnits (m_config (self w1))).
  { rewrite <- HW. unfold mainEntry.
    destruct (firstStageDue (m_config (self W))); reflexivity. }
  assert (Hint2 : is_int (workUnits (m_config (self (mainEntry sv' W))))).
  { rewrite HE. unfold is_int. assert (0 < 2 ^ 31) by reflexivity. lia. }
  rewrite (configured_workUnits_kept_aux scene' (mainEntry sv' W) Hint2)
    in E2 by (rewrite HE; lia).
  inversion E2. unfold scheduledConfig. xred. rewrite HE.
  split; reflexivity.
Qed.

End Again.

(** * The sample count of the direct pass *)

Section Rounded.





Variable sv : Services.
Variable scene : Scene.
Variables sceneResID sensorResID samplerResID : Z.



End Rounded.

Section RoundedRuns.


(** A configured power of two is what the pass works with. *)
Lemma directSamples_default_kept :
  directPassSamples
    (events_of (render sampleServices sampleScene 1 2 3 sampleWorld))
  = [16].
Proof. vm_compute. reflexivity. Qed.

End RoundedRuns.

(** * The further properties on concrete runs *)

Section MoreRuns.

Lemma nested_run_quiet_witness :
  twoStage (m_config (self nestedWorld)) = true /\
  firstStage (m_config (self nestedWorld)) = true /\
  luminancePasses
    (events_of (render sampleServices sampleScene 1 2 3 nestedWorld)) = []
  /\
  directRequests
    (events_of (render sampleServices sampleScene 1 2 3 nestedWorld)) = []
  /\
  dumps (events_of (render sampleServices sampleScene 1 2 3 nestedWorld))
  = 0%nat.
Proof.
  assert (H1 : twoStage (m_config (self nestedWorld)) = true)
    by (vm_compute; reflexivity).
  assert (H2 : firstStage (m_config (self nestedWorld)) = true)
    by (vm_compute; reflexivity).
  split; [exact H1|]. split; [exact H2|].
  exact (nested_run_quiet sampleServices sampleScene 1 2 3 nestedWorld H1 H2).
Defined.

Lemma direct_light_hidden_witness :
  separateDirect (m_config (self hiddenWorld)) = true /\
  directGuard (m_config (self hiddenWorld)) = false /\
  directRequests
    (events_of (render sampleServices sampleScene 1 2 3 hiddenWorld)) = []
  /\
  match
    scheduled
      (events_of (render sampleServices sampleScene 1 2 3 hiddenWorld))
  with
  | [] => True
  | (p, c, img, seeds) :: _ =>
      img = None /\
      pathSamplers
        (events_of (render sampleServices sampleScene 1 2 3 hiddenWorld))
      = [(maxDepth (m_config (self hiddenWorld)), 10, true, true)]
  end.
Proof.
  assert (H1 : separateDirect (m_config (self hiddenWorld)) = true)
    by (vm_compute; reflexivity).
  assert (H2 : directGuard (m_config (self hiddenWorld)) = false)
    by (vm_compute; reflexivity).
  split; [exact H1|]. split; [exact H2|].
  exact (direct_light_hidden sampleServices sampleScene 1 2 3 hiddenWorld
           H1 H2).
Defined.

Lemma workUnits_stick_witness :
  wellFormed sampleScene /\
  is_int (workUnits (m_config (self sampleWorld))) /\
  In (EvSchedule (ProcessRef 1)
        (config_of (render sampleServices sampleScene 1 2 3 sampleWorld))
        (Some (BitmapRef 2)) [PathSeedRef 1])
     (events_of (render sampleServices sampleScene 1 2 3 sampleWorld)) /\
  In (EvSchedule (ProcessRef 1)
        (config_of
           (render sampleServices smallScene 1 2 3
              (world_of (render sampleServices sampleScene 1 2 3
                           sampleWorld))))
        (Some (BitmapRef 2)) [PathSeedRef 3])
     (events_of
        (render sampleServices smallScene 1 2 3
           (world_of (render sampleServices sampleScene 1 2 3 sampleWorld))))
  /\
  workUnits
    (config_of
       (render sampleServices smallScene 1 2 3
          (world_of (render sampleServices sampleScene 1 2 3 sampleWorld))))
  = workUnits
      (config_of (render sampleServices sampleScene 1 2 3 sampleWorld)) /\
  nMutations
    (config_of
       (render sampleServices smallScene 1 2 3
          (world_of (render sampleServices sampleScene 1 2 3 sampleWorld))))
  = pixelSamples smallScene
    / workUnits
        (config_of (render sampleServices sampleScene 1 2 3 sampleWorld)).
Proof.
  assert (H1 : wellFormed sampleScene) by (vm_compute; easy).
  assert (H2 : is_int (workUnits (m_config (self sampleWorld))))
    by (vm_compute; easy).
  assert (H3 : In (EvSchedule (ProcessRef 1)
                     (config_of (render sampleServices sampleScene 1 2 3
                                   sampleWorld))
                     (Some (BitmapRef 2)) [PathSeedRef 1])
                  (events_of (render sampleServices sampleScene 1 2 3
                                sampleWorld))).
  { vm_compute. repeat (first [left; reflexivity | right]). }
  assert (H4 : In (EvSchedule (ProcessRef 1)
                     (config_of
                        (render sampleServices smallScene 1 2 3
                           (world_of (render sampleServices sampleScene 1 2 3
                                        sampleWorld))))
                     (Some (BitmapRef 2)) [PathSeedRef 3])
                  (events_of
                     (render sampleServices smallScene 1 2 3
                        (world_of (render sampleServices sampleScene 1 2 3
                                     sampleWorld))))).
  { vm_compute. repeat (first [left; reflexivity | right]). }
  split; [exact H1|]. split; [exact H2|]. split; [exact H3|].
  split; [exact H4|].
  exact (workUnits_stick sampleServices sampleServices sampleScene smallScene
           1 2 3 1 2 3 sampleWorld _ _ _ _ _ _ _ _ H1 H2 H3 H4).
Defined.

(** The second of the two runs above: a 64 x 64 crop at one sample per
    pixel would get one work unit of 4096 mutations on its own; after the
    512 x 512 run it gets the six work units of that run, 682 mutations
    each. *)
Lemma workUnits_stick_example :
  workUnits
    (config_of (render sampleServices smallScene 1 2 3 sampleWorld)) = 1 /\
  workUnits
    (config_of
       (render sampleServices smallScene 1 2 3
          (world_of (render sampleServices sampleScene 1 2 3 sampleWorld))))
  = 6 /\
  nMutations
    (config_of
       (render sampleServices smallScene 1 2 3
          (world_of (render sampleServices sampleScene 1 2 3 sampleWorld))))
  = 682.
Proof. vm_compute. repeat split; reflexivity. Qed.

End MoreRuns.
